(** * UrawaCup: the reports router (backend/routes/reports.py)

    A shallow embedding of the report endpoints: the recipient and
    sender registry, the report-data and match-report queries, the export
    file names and the group-standings PDF layout loop, with the properties
    the specification states about them.

    Conventions.
    - Python [int] is [Z]; [Optional[T]] is [option T]; [str] is [string]
      holding the UTF-8 bytes of the text.
    - The ORM session is a record of tables (lists of rows, in storage
      order); a handler takes the session and returns a [result]: [Ok v]
      or [Raise e] for a raised [HTTPException].
    - The model classes (models/*.py) and the pydantic schemas
      (schemas/report.py) are imported by the router and not part of it;
      their fields are the ones the router reads and writes, typed as in
      the data model of the specification.
    - Lengths on the PDF canvas are whole millimetres: every coordinate
      of the source is an integer multiple of [mm], and the A4 page is
      210 x 297 mm. The source holds them as floating-point points
      ([mm] = 72/25.4); the model computes the same quantities exactly,
      which can differ from the source only when the cursor stands on the
      80 mm threshold itself. The statements on the document hold whichever
      way a comparison at the threshold goes, and in the sample documents
      the cursor stays at least 1 mm away from it. *)

From Stdlib Require Import ZArith List String Ascii Bool Lia.
From Stdlib Require Import DecimalString.
From Stdlib Require Import Sorting.Sorted Sorting.Permutation.
From Stdlib Require Import OrdersEx RelationClasses.
Import ListNotations.

Local Open Scope string_scope.
Local Open Scope Z_scope.

(* ===================================================================== *)
(** * Python built-ins used by the router *)
(* ===================================================================== *)

Module Py.

(** [str(n)] for an [int]. *)
Definition str (n : Z) : string := NilZero.string_of_int (Z.to_int n).

(** [str(x)] / [f"{x}"] for an [Optional[int]]: [None] prints as its name. *)
Definition str_opt (o : option Z) : string :=
  match o with
  | Some n => str n
  | None => "None"
  end.

(** Truthiness of an [Optional[int]]: [None] and [0] are falsy. *)
Definition truthy_int (o : option Z) : bool :=
  match o with
  | Some n => negb (n =? 0)
  | None => false
  end.

(** Truthiness of an [Optional[str]]: [None] and the empty string are
    falsy. *)
Definition truthy_str (o : option string) : bool :=
  match o with
  | Some EmptyString => false
  | Some _ => true
  | None => false
  end.

(** [x or 0] for an [Optional[int]] [x]. *)
Definition or_zero (o : option Z) : Z :=
  match o with
  | Some n => if truthy_int o then n else 0
  | None => 0
  end.

(** [x or d] for an [Optional[str]] [x] and a [str] [d]. *)
Definition or_str (o : option string) (d : string) : string :=
  match o with
  | Some s => if truthy_str o then s else d
  | None => d
  end.

(** Left padding with zeros up to [width] characters (the [%02d] and
    [%04d] of [isoformat] and [strftime]). *)
Definition zfill (width : nat) (s : string) : string :=
  String.concat "" (repeat "0" (width - String.length s)) ++ s.

Definition pad2 (n : nat) : string :=
  zfill 2 (NilZero.string_of_uint (Nat.to_uint n)).

Definition pad4 (n : nat) : string :=
  zfill 4 (NilZero.string_of_uint (Nat.to_uint n)).

(** A byte that continues a UTF-8 character: [10xxxxxx]. *)
Definition is_continuation (c : ascii) : bool :=
  let n := nat_of_ascii c in
  (Nat.leb 128 n && Nat.ltb n 192)%bool.

(** [s[:n]]: the first [n] characters of [s]. Python slices by
    character, the model's strings are UTF-8 bytes, so a continuation
    byte stays with the character it belongs to. *)
Fixpoint slice_to (n : nat) (s : string) : string :=
  match s with
  | EmptyString => EmptyString
  | String c rest =>
      if is_continuation c then String c (slice_to n rest)
      else match n with
           | O => EmptyString
           | S k => String c (slice_to k rest)
           end
  end.

(** ** [sorted(xs, key=...)] with a key made of two integers.

    Tuples compare lexicographically. [sorted] is stable: elements with
    equal keys keep their input order. *)
Definition key := (Z * Z)%type.

Definition key_ltb (a b : key) : bool :=
  ((fst a <? fst b) || ((fst a =? fst b) && (snd a <? snd b)))%bool.

Definition key_le (a b : key) : Prop :=
  fst a < fst b \/ (fst a = fst b /\ snd a <= snd b).

Section Sorted.
Context {A : Type} (ltb : A -> A -> bool).

(** [x] precedes, in the input, every element of [l]: it goes before
    the first element that is not smaller than itself. *)
Fixpoint insert (x : A) (l : list A) : list A :=
  match l with
  | [] => [x]
  | y :: l' => if ltb y x then y :: insert x l' else x :: y :: l'
  end.

Definition sorted_by (l : list A) : list A := fold_right insert [] l.
End Sorted.

Definition sorted {A : Type} (k : A -> key) (l : list A) : list A :=
  sorted_by (fun a b => key_ltb (k a) (k b)) l.

End Py.

(* ===================================================================== *)
(** * datetime.date and datetime.time *)
(* ===================================================================== *)

Record date := mkDate { year : nat; month : nat; day : nat }.

Definition date_eqb (a b : date) : bool :=
  (Nat.eqb (year a) (year b) && Nat.eqb (month a) (month b)
   && Nat.eqb (day a) (day b))%bool.

(** [d.isoformat()] *)
Definition isoformat (d : date) : string :=
  Py.pad4 (year d) ++ "-" ++ Py.pad2 (month d) ++ "-" ++ Py.pad2 (day d).

Record time := mkTime { hour : nat; minute_of_hour : nat }.

(** [t.strftime("%H:%M")] *)
Definition strftime_HM (t : time) : string :=
  Py.pad2 (hour t) ++ ":" ++ Py.pad2 (minute_of_hour t).

(* ===================================================================== *)
(** * Models *)
(* ===================================================================== *)

Inductive MatchStage := QUALIFYING | SEMIFINAL | THIRD_PLACE | FINAL | TRAINING.

Inductive MatchStatus := SCHEDULED | COMPLETED.

Definition stage_eqb (a b : MatchStage) : bool :=
  match a, b with
  | QUALIFYING, QUALIFYING | SEMIFINAL, SEMIFINAL | THIRD_PLACE, THIRD_PLACE
  | FINAL, FINAL | TRAINING, TRAINING => true
  | _, _ => false
  end.

Definition status_eqb (a b : MatchStatus) : bool :=
  match a, b with
  | SCHEDULED, SCHEDULED | COMPLETED, COMPLETED => true
  | _, _ => false
  end.

Record Tournament := mkTournament {
  t_id : Z;
  t_name : string;
  sender_organization : option string;
  sender_name : option string;
  sender_contact : option string
}.

Record Venue := mkVenue {
  v_id : Z;
  v_tournament_id : Z;
  v_name : string;
  is_finals_venue : bool
}.

Record Team := mkTeam {
  team_id : Z;
  team_name : string;
  short_name : option string
}.

Record Group := mkGroup {
  g_id : string;
  g_name : string
}.

(** A goal with its [team] relationship loaded. *)
Record Goal := mkGoal {
  half : Z;
  minute : Z;
  goal_team : Team;
  player_name : string;
  is_own_goal : bool;
  is_penalty : bool
}.

(** A match with its [home_team], [away_team] and [goals] relationships
    loaded ([joinedload]). *)
Record Match := mkMatch {
  m_id : Z;
  m_tournament_id : Z;
  m_venue_id : Z;
  match_date : date;
  match_time : time;
  match_order : Z;
  stage : MatchStage;
  status : MatchStatus;
  home_team : Team;
  away_team : Team;
  home_score_half1 : option Z;
  home_score_half2 : option Z;
  away_score_half1 : option Z;
  away_score_half2 : option Z;
  has_penalty_shootout : bool;
  home_pk : option Z;
  away_pk : option Z;
  goals : list Goal
}.

Record Standing := mkStanding {
  s_tournament_id : Z;
  s_group_id : string;
  s_team_id : Z;
  rank : Z;
  played : Z;
  won : Z;
  drawn : Z;
  lost : Z;
  goals_for : Z;
  goals_against : Z;
  goal_difference : Z
}.

Record ReportRecipient := mkRecipient {
  r_id : Z;
  r_tournament_id : Z;
  r_name : string;
  r_notes : string
}.

(** The session: one list of rows per table, in storage order. *)
Record Session := mkSession {
  tournaments : list Tournament;
  venues : list Venue;
  teams : list Team;
  groups : list Group;
  matches : list Match;
  standings : list Standing;
  recipients : list ReportRecipient
}.

(** [HTTPException(status_code, detail)] *)
Record HTTPException := mkHTTPException {
  status_code : Z;
  detail : string
}.

Inductive result (A : Type) :=
| Ok (v : A)
| Raise (e : HTTPException).
Arguments Ok {A} v.
Arguments Raise {A} e.

Definition HTTP_404_NOT_FOUND : Z := 404.
Definition HTTP_500_INTERNAL_SERVER_ERROR : Z := 500.

Definition is_ok {A} (r : result A) : bool :=
  match r with Ok _ => true | Raise _ => false end.

Definition raised_status {A} (r : result A) : option Z :=
  match r with Ok _ => None | Raise e => Some (status_code e) end.

(** [db.query(Tournament).filter(Tournament.id == tournament_id).first()] *)
Definition find_tournament (db : Session) (tournament_id : Z) : option Tournament :=
  find (fun t => t_id t =? tournament_id) (tournaments db).

(** The [detail] of the 404 every handler raises for a missing tournament. *)
Definition tournament_not_found (tournament_id : Z) : HTTPException :=
  mkHTTPException HTTP_404_NOT_FOUND
    ("大会が見つかりません (ID: " ++ Py.str tournament_id ++ ")").


(* ===================================================================== *)
(** * Schemas (schemas/report.py) *)
(* ===================================================================== *)

(** [SenderSettingsUpdate]: every field is optional in the request body.
    The outer [option] tells whether the client set the field at all, the
    inner one is the value it set ([null] is a value). *)
Record SenderSettingsUpdate := mkSenderSettingsUpdate {
  upd_sender_organization : option (option string);
  upd_sender_name : option (option string);
  upd_sender_contact : option (option string)
}.

Record SenderSettingsResponse := mkSenderSettingsResponse {
  resp_sender_organization : option string;
  resp_sender_name : option string;
  resp_sender_contact : option string
}.

Record GoalReport := mkGoalReport {
  gr_minute : Z;
  gr_half : Z;
  gr_team_name : string;
  gr_player_name : string;
  display_text : string
}.

Record MatchReport := mkMatchReport {
  match_number : Z;
  kickoff_time : string;
  home_team_name : string;
  away_team_name : string;
  score_half1 : string;
  score_half2 : string;
  score_total : string;
  score_pk : option string;
  mr_goals : list GoalReport
}.

Record ReportData := mkReportData {
  rd_tournament : Tournament;
  rd_date : string;
  rd_venue : option Venue;
  rd_matches : list Match;
  rd_recipients : list ReportRecipient;
  generated_at : string;
  generated_by : string
}.

(** [settings.model_dump(by_alias=False, exclude_unset=True)]: the fields
    the client set, under their own names, in declaration order. *)
Definition model_dump_exclude_unset (s : SenderSettingsUpdate)
  : list (string * option string) :=
  (match upd_sender_organization s with
   | Some v => [("sender_organization", v)] | None => [] end)
  ++ (match upd_sender_name s with
      | Some v => [("sender_name", v)] | None => [] end)
  ++ (match upd_sender_contact s with
      | Some v => [("sender_contact", v)] | None => [] end).

(* ===================================================================== *)
(** * Recipients *)
(* ===================================================================== *)

(** [GET /recipients] *)
Definition get_recipients (db : Session) (tournament_id : Z) : list ReportRecipient :=
  filter (fun r => r_tournament_id r =? tournament_id) (recipients db).

(** The primary key the database gives to the next inserted recipient. *)
Definition next_recipient_id (rs : list ReportRecipient) : Z :=
  1 + fold_right Z.max 0 (map r_id rs).

(** [db.add(ReportRecipient(tournament_id=..., name=..., notes=...))],
    flushed: the row is appended to the table under a fresh key. *)
Definition db_add_recipient (db : Session) (tournament_id : Z) (name notes : string)
  : Session * ReportRecipient :=
  let r := mkRecipient (next_recipient_id (recipients db)) tournament_id name notes in
  (mkSession (tournaments db) (venues db) (teams db) (groups db) (matches db)
     (standings db) (recipients db ++ [r]), r).

Definition default_recipients : list (string * string) :=
  [ ("埼玉新聞", "スポーツ部");
    ("テレビ埼玉", "報道部");
    ("イシクラ", "");
    ("埼玉県サッカー協会", "") ].

(** The loop of [setup_default_recipients]: one [db.add] per entry, the
    created rows collected in order. *)
Fixpoint add_all (db : Session) (tournament_id : Z) (data : list (string * string))
  : Session * list ReportRecipient :=
  match data with
  | [] => (db, [])
  | (name, notes) :: rest =>
      let '(db1, r) := db_add_recipient db tournament_id name notes in
      let '(db2, created) := add_all db1 tournament_id rest in
      (db2, r :: created)
  end.

(** [POST /recipients/{tournament_id}/setup-default] *)
Definition setup_default_recipients (db : Session) (tournament_id : Z)
  : result (Session * list ReportRecipient) :=
  match find_tournament db tournament_id with
  | None => Raise (tournament_not_found tournament_id)
  | Some _ => Ok (add_all db tournament_id default_recipients)
  end.

(* ===================================================================== *)
(** * Sender settings *)
(* ===================================================================== *)

(** [GET /sender-settings/{tournament_id}] *)
Definition get_sender_settings (db : Session) (tournament_id : Z)
  : result SenderSettingsResponse :=
  match find_tournament db tournament_id with
  | None => Raise (tournament_not_found tournament_id)
  | Some t =>
      Ok (mkSenderSettingsResponse (sender_organization t) (sender_name t)
            (sender_contact t))
  end.

(** The attributes of a [Tournament] object. *)
Definition hasattr (field : string) : bool :=
  existsb (String.eqb field)
    ["id"; "name"; "sender_organization"; "sender_name"; "sender_contact"].

(** [setattr(tournament, field, value)] for the sender columns, the only
    names a [SenderSettingsUpdate] dump holds. *)
Definition setattr (t : Tournament) (field : string) (value : option string)
  : Tournament :=
  if String.eqb field "sender_organization" then
    mkTournament (t_id t) (t_name t) value (sender_name t) (sender_contact t)
  else if String.eqb field "sender_name" then
    mkTournament (t_id t) (t_name t) (sender_organization t) value (sender_contact t)
  else if String.eqb field "sender_contact" then
    mkTournament (t_id t) (t_name t) (sender_organization t) (sender_name t) value
  else t.

(** [for field, value in update_data.items(): if hasattr(...): setattr(...)] *)
Definition apply_update (t : Tournament) (update_data : list (string * option string))
  : Tournament :=
  fold_left (fun acc fv => if hasattr (fst fv) then setattr acc (fst fv) (snd fv) else acc)
    update_data t.

(** [db.commit()] of the modified tournament object: the row that
    [first()] returned is written back. *)
Fixpoint write_tournament (ts : list Tournament) (tournament_id : Z) (t' : Tournament)
  : list Tournament :=
  match ts with
  | [] => []
  | t :: rest =>
      if t_id t =? tournament_id then t' :: rest
      else t :: write_tournament rest tournament_id t'
  end.

(** [PATCH /sender-settings/{tournament_id}] *)
Definition update_sender_settings (db : Session) (tournament_id : Z)
    (settings : SenderSettingsUpdate) : result (Session * SenderSettingsResponse) :=
  match find_tournament db tournament_id with
  | None => Raise (tournament_not_found tournament_id)
  | Some tournament =>
      let update_data := model_dump_exclude_unset settings in
      let tournament' := apply_update tournament update_data in
      let db' := mkSession (write_tournament (tournaments db) tournament_id tournament')
                   (venues db) (teams db) (groups db) (matches db) (standings db)
                   (recipients db) in
      Ok (db', mkSenderSettingsResponse (sender_organization tournament')
                 (sender_name tournament') (sender_contact tournament'))
  end.

(* ===================================================================== *)
(** * Report data *)
(* ===================================================================== *)

(** [query.order_by(Match.venue_id, Match.match_order)]. SQL leaves the
    order of rows with equal keys to the database; here they stay in
    storage order, and no statement on the queries depends on it. *)
Definition order_by_venue_order (q : list Match) : list Match :=
  Py.sorted (fun m => (m_venue_id m, match_order m)) q.

(** [if venue_id: query = query.filter(Match.venue_id == venue_id)] *)
Definition filter_venue (venue_id : option Z) (q : list Match) : list Match :=
  match venue_id with
  | Some v => if Py.truthy_int venue_id then filter (fun m => m_venue_id m =? v) q else q
  | None => q
  end.

(** The match query of [get_report_data]. *)
Definition report_data_query (db : Session) (tournament_id : Z) (target_date : date)
    (venue_id : option Z) : list Match :=
  let query :=
    filter (fun m => (m_tournament_id m =? tournament_id)
                     && date_eqb (match_date m) target_date
                     && negb (stage_eqb (stage m) TRAINING))%bool
      (matches db) in
  let query := filter_venue venue_id query in
  order_by_venue_order query.

(** [GET /data]; [now] is [datetime.now().isoformat()]. *)
Definition get_report_data (db : Session) (tournament_id : Z) (target_date : date)
    (venue_id : option Z) (now : string) : result ReportData :=
  match find_tournament db tournament_id with
  | None => Raise (tournament_not_found tournament_id)
  | Some tournament =>
      let matches := report_data_query db tournament_id target_date venue_id in
      let venue :=
        match venue_id with
        | Some v => if Py.truthy_int venue_id
                    then find (fun x => v_id x =? v) (venues db) else None
        | None => None
        end in
      let recipients := get_recipients db tournament_id in
      Ok (mkReportData tournament (isoformat target_date) venue matches recipients
            now "浦和カップ運営事務局")
  end.

(* ===================================================================== *)
(** * Match reports *)
(* ===================================================================== *)

(** ["前半" if goal.half == 1 else "後半"] *)
Definition half_text (h : Z) : string :=
  if h =? 1 then "前半" else "後半".

(** The body of the goal loop: one [GoalReport] per goal. *)
Definition goal_report (goal : Goal) : GoalReport :=
  let display :=
    half_text (half goal) ++ Py.str (minute goal) ++ "分 "
    ++ team_name (goal_team goal) ++ " " ++ player_name goal in
  let display := if is_own_goal goal then display ++ "(OG)" else display in
  let display := if is_penalty goal then display ++ "(PK)" else display in
  mkGoalReport (minute goal) (half goal) (team_name (goal_team goal))
    (player_name goal) display.

Definition goal_key (g : Goal) : Py.key := (half g, minute g).

(** The body of the match loop: one [MatchReport] per match. *)
Definition match_report (m : Match) : MatchReport :=
  let goals := map goal_report (Py.sorted goal_key (goals m)) in
  let h1 := Py.or_zero (home_score_half1 m) in
  let h2 := Py.or_zero (home_score_half2 m) in
  let a1 := Py.or_zero (away_score_half1 m) in
  let a2 := Py.or_zero (away_score_half2 m) in
  let score_pk :=
    if has_penalty_shootout m
    then Some (Py.str_opt (home_pk m) ++ "-" ++ Py.str_opt (away_pk m))
    else None in
  mkMatchReport (match_order m) (strftime_HM (match_time m))
    (Py.or_str (short_name (home_team m)) (team_name (home_team m)))
    (Py.or_str (short_name (away_team m)) (team_name (away_team m)))
    (Py.str h1 ++ "-" ++ Py.str a1)
    (Py.str h2 ++ "-" ++ Py.str a2)
    (Py.str (h1 + h2) ++ "-" ++ Py.str (a1 + a2))
    score_pk goals.

(** The match query of [get_match_reports]. *)
Definition match_reports_query (db : Session) (tournament_id : Z) (target_date : date)
    (venue_id : option Z) : list Match :=
  let query :=
    filter (fun m => (m_tournament_id m =? tournament_id)
                     && date_eqb (match_date m) target_date
                     && status_eqb (status m) COMPLETED
                     && negb (stage_eqb (stage m) TRAINING))%bool
      (matches db) in
  let query := filter_venue venue_id query in
  order_by_venue_order query.

(** [GET /match-reports]. The handler does not look the tournament up. *)
Definition get_match_reports (db : Session) (tournament_id : Z) (target_date : date)
    (venue_id : option Z) : result (list MatchReport) :=
  let matches := match_reports_query db tournament_id target_date venue_id in
  Ok (map match_report matches).

(* ===================================================================== *)
(** * PDF and Excel export of the daily report *)
(* ===================================================================== *)

Record StreamingResponse (B : Type) := mkStreamingResponse {
  body : B;
  media_type : string;
  content_disposition : string
}.
Arguments mkStreamingResponse {B} _ _ _.
Arguments body {B} _.
Arguments media_type {B} _.
Arguments content_disposition {B} _.


Section ReportService.

(** [services/report_service.py] is outside the router. Its two
    generators are taken as they are called: they return the document
    bytes ([inr]) or raise an exception with a message ([inl]). *)
Variable generate_pdf : Session -> Z -> date -> option Z -> string + string.
Variable generate_excel : Session -> Z -> date -> option Z -> string + string.



End ReportService.

(* ===================================================================== *)
(** * Group standings PDF *)
(* ===================================================================== *)

(** ** The ReportLab canvas

    A page is the list of drawing operations issued on it, in order.
    [showPage] closes the current page; [save] closes the current page if
    anything was issued on it and yields the document. *)
Inductive op :=
| SetFont (name : string) (size : Z)
| DrawString (x y : Z) (text : string)
| Line (x1 y1 x2 y2 : Z).

Definition page := list op.

Record Canvas := mkCanvas {
  finished : list page;
  code : page
}.

Definition new_canvas : Canvas := mkCanvas [] [].

Definition issue (c : Canvas) (o : op) : Canvas :=
  mkCanvas (finished c) (code c ++ [o])%list.

Definition setFont (c : Canvas) (name : string) (size : Z) : Canvas :=
  issue c (SetFont name size).

Definition drawString (c : Canvas) (x y : Z) (text : string) : Canvas :=
  issue c (DrawString x y text).

Definition line (c : Canvas) (x1 y1 x2 y2 : Z) : Canvas :=
  issue c (Line x1 y1 x2 y2).

Definition showPage (c : Canvas) : Canvas :=
  mkCanvas (finished c ++ [code c])%list [].

Definition save (c : Canvas) : list page :=
  match code c with
  | [] => finished c
  | _ :: _ => (finished c ++ [code c])%list
  end.

(** A4 in millimetres. *)
Definition A4_width : Z := 210.
Definition A4_height : Z := 297.

(** What the host offers: whether ReportLab imports, and which of the two
    font files load. *)
Record Host := mkHost {
  reportlab_installed : bool;
  msgothic_loads : bool;
  hiragino_loads : bool
}.

(** The nested [try] that registers a Japanese font. *)
Definition resolve_font (h : Host) : string :=
  if msgothic_loads h then "Gothic"
  else if hiragino_loads h then "Gothic"
  else "Helvetica".

(** The state of the layout loop. *)
Record Layout := mkLayout {
  canvas : Canvas;
  y : Z;
  current_group : option string
}.

Definition group_changed (gid : string) (current : option string) : bool :=
  match current with
  | Some g => negb (String.eqb gid g)
  | None => true
  end.

(** The group header block: spacing, page break, title, column header. *)
Definition group_header (db : Session) (font_name : string) (st : Layout)
    (standing : Standing) : Layout :=
  let c := canvas st in
  let y := y st in
  let y := match current_group st with Some _ => y - 10 | None => y end in
  let '(c, y) :=
    if y <? 80
    then (setFont (showPage c) font_name 12, A4_height - 20)
    else (c, y) in
  let group := find (fun g => String.eqb (g_id g) (s_group_id standing)) (groups db) in
  let group_name :=
    match group with Some g => g_name g | None => s_group_id standing end in
  let c := setFont c font_name 12 in
  let c := drawString c 30 y ("【" ++ group_name ++ "】") in
  let y := y - 8 in
  let c := setFont c font_name 9 in
  let c := drawString c 30 y "順位" in
  let c := drawString c 45 y "チーム名" in
  let c := drawString c 100 y "試合" in
  let c := drawString c 115 y "勝" in
  let c := drawString c 125 y "分" in
  let c := drawString c 135 y "負" in
  let c := drawString c 145 y "得点" in
  let c := drawString c 160 y "失点" in
  let c := drawString c 175 y "得失点差" in
  let y := y - 5 in
  let c := line c 30 (y + 2) 190 (y + 2) in
  mkLayout c y (Some (s_group_id standing)).

(** One data row. *)
Definition standing_row (db : Session) (font_name : string) (st : Layout)
    (standing : Standing) : Layout :=
  let c := canvas st in
  let y := y st in
  let team := find (fun t => team_id t =? s_team_id standing) (teams db) in
  let team_name :=
    match team with
    | Some t => Py.or_str (short_name t) (team_name t)
    | None => "Unknown"
    end in
  let c := setFont c font_name 9 in
  let c := drawString c 32 y (Py.str (rank standing)) in
  let c := drawString c 45 y (Py.slice_to 15 team_name) in
  let c := drawString c 102 y (Py.str (played standing)) in
  let c := drawString c 117 y (Py.str (won standing)) in
  let c := drawString c 127 y (Py.str (drawn standing)) in
  let c := drawString c 137 y (Py.str (lost standing)) in
  let c := drawString c 147 y (Py.str (goals_for standing)) in
  let c := drawString c 162 y (Py.str (goals_against standing)) in
  let c := drawString c 177 y (Py.str (goal_difference standing)) in
  mkLayout c (y - 5) (current_group st).

(** The body of [for standing in standings]. *)
Definition layout_step (db : Session) (font_name : string) (st : Layout)
    (standing : Standing) : Layout :=
  let st :=
    if group_changed (s_group_id standing) (current_group st)
    then group_header db font_name st standing
    else st in
  standing_row db font_name st standing.

(** The drawing part of the handler, from the title to [c.save()]. *)
Definition draw_group_standings (db : Session) (font_name : string)
    (tournament : Tournament) (standings : list Standing) : list page :=
  let c := new_canvas in
  let y := A4_height - 20 in
  let c := setFont c font_name 16 in
  let c := drawString c 30 y (t_name tournament ++ " グループ順位表") in
  let y := y - 15 in
  let st := fold_left (layout_step db font_name) standings (mkLayout c y None) in
  let c := canvas st in
  let c := setFont c font_name 8 in
  let c := drawString c 30 15 "浦和カップ運営事務局" in
  save c.

(** [if group_id: query = query.filter(Standing.group_id == group_id)] *)
Definition filter_group (group_id : option string) (q : list Standing) : list Standing :=
  match group_id with
  | Some g => if Py.truthy_str group_id
              then filter (fun s => String.eqb (s_group_id s) g) q else q
  | None => q
  end.

(** [Standing.group_id, Standing.rank] compared as a pair. *)
Definition standing_ltb (a b : Standing) : bool :=
  (String.ltb (s_group_id a) (s_group_id b)
   || (String.eqb (s_group_id a) (s_group_id b) && (rank a <? rank b)))%bool.

(** The standings query of [export_group_standings_pdf]. *)
Definition standings_query (db : Session) (tournament_id : Z) (group_id : option string)
  : list Standing :=
  let query := filter (fun s => s_tournament_id s =? tournament_id) (standings db) in
  let query := filter_group group_id query in
  Py.sorted_by standing_ltb query.

Definition group_standings_filename (tournament_id : Z) (group_id : option string)
  : string :=
  let filename := "group_standings_tournament_" ++ Py.str tournament_id in
  let filename :=
    match group_id with
    | Some g => if Py.truthy_str group_id then filename ++ "_group_" ++ g else filename
    | None => filename
    end in
  filename ++ ".pdf".

(** [GET /export/group-standings] *)
Definition export_group_standings_pdf (h : Host) (db : Session) (tournament_id : Z)
    (group_id : option string) : result (StreamingResponse (list page)) :=
  match find_tournament db tournament_id with
  | None => Raise (tournament_not_found tournament_id)
  | Some tournament =>
      match standings_query db tournament_id group_id with
      | [] => Raise (mkHTTPException HTTP_404_NOT_FOUND "順位データが見つかりません")
      | (_ :: _) as standings =>
          if negb (reportlab_installed h)
          then Raise (mkHTTPException HTTP_500_INTERNAL_SERVER_ERROR
                        "ReportLabがインストールされていません")
          else
            let font_name := resolve_font h in
            let buffer := draw_group_standings db font_name tournament standings in
            Ok (mkStreamingResponse buffer "application/pdf"
                  ("attachment; filename="
                   ++ group_standings_filename tournament_id group_id))
      end
  end.

(* ===================================================================== *)
(** * A sample database, used to run the handlers *)
(* ===================================================================== *)

Definition urawa_a : Team := mkTeam 1 "浦和南ジュニア" (Some "浦和A").
Definition omiya : Team := mkTeam 2 "大宮FC" None.

Definition day1 : date := mkDate 2025 3 29.

Definition sample_goals : list Goal :=
  [ mkGoal 1 10 urawa_a "田中" false false;
    mkGoal 2 5 omiya "鈴木" true true;
    mkGoal 1 40 urawa_a "佐藤" false true ].

(** A completed qualifying match: 2-0 at half time, 3-1 at the end. *)
Definition played_match : Match :=
  mkMatch 1 1 1 day1 (mkTime 9 30) 1 QUALIFYING COMPLETED urawa_a omiya
    (Some 2) (Some 1) (Some 0) (Some 1) false None None sample_goals.

(** A qualifying match of the same day that has not been played. *)
Definition scheduled_match : Match :=
  mkMatch 2 1 2 day1 (mkTime 10 30) 1 QUALIFYING SCHEDULED omiya urawa_a
    None None None None false None None [].

(** A completed training match of the same day. *)
Definition training_match : Match :=
  mkMatch 3 1 1 day1 (mkTime 11 30) 2 TRAINING COMPLETED urawa_a omiya
    (Some 1) (Some 1) (Some 1) (Some 1) false None None [].

Definition sample_tournament : Tournament :=
  mkTournament 1 "浦和カップ" (Some "県立浦和高校") None (Some "048-000-0000").

Definition sample_db : Session :=
  mkSession [sample_tournament]
    [mkVenue 1 1 "浦和南高G" false; mkVenue 2 1 "駒場" true]
    [urawa_a; omiya] [mkGroup "A" "Aグループ"]
    [scheduled_match; training_match; played_match]
    [] [].

(* ===================================================================== *)
(** * Vocabulary of the statements *)
(* ===================================================================== *)

(** The optional venue filter as one predicate. *)
Definition venue_selected (venue_id : option Z) (m : Match) : bool :=
  match venue_id with
  | Some v => (v =? 0) || (m_venue_id m =? v)
  | None => true
  end.

(** The session with every training match deleted. *)
Definition drop_training (db : Session) : Session :=
  mkSession (tournaments db) (venues db) (teams db) (groups db)
    (filter (fun m => negb (stage_eqb (stage m) TRAINING)) (matches db))
    (standings db) (recipients db).

(** The scope of a match report: tournament, day, and the venue when one
    is selected. *)
Definition in_scope (tournament_id : Z) (target_date : date) (venue_id : option Z)
    (m : Match) : bool :=
  (m_tournament_id m =? tournament_id) && date_eqb (match_date m) target_date
  && venue_selected venue_id m.

(** A half score, an absent one read as 0. *)
Definition score_or_zero (o : option Z) : Z :=
  match o with Some n => n | None => 0 end.

(** The suffix a flag adds to a goal line. *)
Definition marker (flag : bool) (text : string) : string :=
  if flag then text else "".

(** The value of a sender field after an update: the supplied value when
    the request has the field, the prior value when it does not. *)
Definition supplied_or_prior (u : option (option string)) (prior : option string)
  : option string :=
  match u with Some v => v | None => prior end.

(** The sender line of the footer. *)
Definition footer_text : string := "浦和カップ運営事務局".

(** The footer line: the sender text at x = 30 mm, y = 15 mm. *)
Definition is_footer (o : op) : bool :=
  match o with
  | DrawString x y text => (x =? 30) && (y =? 15) && String.eqb text footer_text
  | _ => false
  end.

(** How many times the footer is drawn on a page. *)
Definition footer_count (p : page) : nat := List.length (filter is_footer p).

(** The rank cell of a data row: the one string drawn at x = 32 mm. Every
    data row has exactly one, and nothing else is drawn there. *)
Definition is_rank_cell (o : op) : bool :=
  match o with
  | DrawString x _ _ => x =? 32
  | _ => false
  end.

(** The data rows drawn on a page. *)
Definition rows_drawn (p : page) : nat := List.length (filter is_rank_cell p).

(** The data rows drawn on all the pages of a document. *)
Definition total_rows (doc : list page) : nat := list_sum (map rows_drawn doc).

(** The text of a string drawn. *)
Definition op_text (o : op) : string :=
  match o with
  | DrawString _ _ text => text
  | _ => ""
  end.

(** Everything issued on a canvas so far, page after page. *)
Definition stream (c : Canvas) : list op := (List.concat (finished c) ++ code c)%list.

(** The rank cells issued on a canvas so far. *)
Definition rank_cells (c : Canvas) : list op := filter is_rank_cell (stream c).

(** Sample standings: the team ranked [i] in a group. *)
Definition standing_of (group_id : string) (i : nat) : Standing :=
  mkStanding 1 group_id (Z.of_nat i) (Z.of_nat i) 3 1 1 1 4 5 (-1).

Definition session_of_standings (l : list Standing) : Session :=
  mkSession [sample_tournament] [] [urawa_a; omiya] [mkGroup "A" "Aグループ"] [] l [].

(** Two groups, of 5 and of 12 teams. *)
Definition two_groups_db : Session :=
  session_of_standings
    (map (standing_of "A") (seq 1 5) ++ map (standing_of "B") (seq 1 12))%list.

(** Five groups of 6 teams: the fifth group does not fit under the
    fourth and opens a second page. *)
Definition five_groups_db : Session :=
  session_of_standings
    (flat_map (fun g => map (standing_of g) (seq 1 6)) ["A"; "B"; "C"; "D"; "E"]).

(** One group of 60 teams, more than a page holds. *)
Definition long_group_db : Session :=
  session_of_standings (map (standing_of "A") (seq 1 60)).

(** A host with ReportLab and neither font file. *)
Definition sample_host : Host := mkHost true false false.

(** No page of the canvas has the footer yet. *)
Definition no_footer (c : Canvas) : Prop :=
  Forall (fun p => footer_count p = 0%nat) (finished c)
  /\ footer_count (code c) = 0%nat.

(* ===================================================================== *)
(** * Recipients: create and delete *)
(* ===================================================================== *)

(** [ReportRecipientCreate] *)
Record ReportRecipientCreate := mkRecipientCreate {
  rc_tournament_id : Z;
  rc_name : string;
  rc_notes : string
}.

(** [POST /recipients] *)
Definition create_recipient (db : Session) (recipient_data : ReportRecipientCreate)
  : result (Session * ReportRecipient) :=
  match find_tournament db (rc_tournament_id recipient_data) with
  | None => Raise (tournament_not_found (rc_tournament_id recipient_data))
  | Some _ =>
      Ok (db_add_recipient db (rc_tournament_id recipient_data)
            (rc_name recipient_data) (rc_notes recipient_data))
  end.

(** [db.query(ReportRecipient).filter(ReportRecipient.id == recipient_id).first()] *)
Definition find_recipient (db : Session) (recipient_id : Z) : option ReportRecipient :=
  find (fun r => r_id r =? recipient_id) (recipients db).

Definition recipient_not_found (recipient_id : Z) : HTTPException :=
  mkHTTPException HTTP_404_NOT_FOUND
    ("送信先が見つかりません (ID: " ++ Py.str recipient_id ++ ")").

(** [db.delete(recipient)]: the row that [first()] returned leaves the
    table. *)
Fixpoint delete_row (rs : list ReportRecipient) (recipient_id : Z)
  : list ReportRecipient :=
  match rs with
  | [] => []
  | r :: rest =>
      if r_id r =? recipient_id then rest else r :: delete_row rest recipient_id
  end.

(** [DELETE /recipients/{recipient_id}] *)
Definition delete_recipient (db : Session) (recipient_id : Z) : result Session :=
  match find_recipient db recipient_id with
  | None => Raise (recipient_not_found recipient_id)
  | Some _ =>
      Ok (mkSession (tournaments db) (venues db) (teams db) (groups db) (matches db)
            (standings db) (delete_row (recipients db) recipient_id))
  end.

(* ===================================================================== *)
(** * Final-day schedule and final result *)
(* ===================================================================== *)

(** What a generator of [services/reports] does when it is built and
    run: it returns the document, raises [ValueError], or raises another
    exception; the string is [str(e)]. *)
Inductive generated :=
| Generated (pdf_buffer : string)
| RaisedValueError (msg : string)
| RaisedException (msg : string).

Section ReportGenerators.

(** The two generators are outside the router and taken as they are
    called. *)
Variable FinalDayScheduleGenerator : Session -> Z -> date -> generated.
Variable FinalResultReportGenerator : Session -> Z -> generated.

(** [GET /export/final-day-schedule] *)
Definition export_final_day_schedule_pdf (db : Session) (tournament_id : Z)
    (target_date : date) : result (StreamingResponse string) :=
  match FinalDayScheduleGenerator db tournament_id target_date with
  | RaisedValueError e => Raise (mkHTTPException HTTP_404_NOT_FOUND e)
  | RaisedException e =>
      Raise (mkHTTPException HTTP_500_INTERNAL_SERVER_ERROR
               ("最終日組み合わせ表の生成に失敗しました: " ++ e))
  | Generated pdf_buffer =>
      let filename := "final_day_schedule_" ++ isoformat target_date ++ ".pdf" in
      Ok (mkStreamingResponse pdf_buffer "application/pdf"
            ("attachment; filename=" ++ filename))
  end.

(** [GET /export/final-result] *)
Definition export_final_result_pdf (db : Session) (tournament_id : Z)
  : result (StreamingResponse string) :=
  match FinalResultReportGenerator db tournament_id with
  | RaisedValueError e => Raise (mkHTTPException HTTP_404_NOT_FOUND e)
  | RaisedException e =>
      Raise (mkHTTPException HTTP_500_INTERNAL_SERVER_ERROR
               ("最終結果報告書の生成に失敗しました: " ++ e))
  | Generated pdf_buffer =>
      let filename := "final_result_tournament_" ++ Py.str tournament_id ++ ".pdf" in
      Ok (mkStreamingResponse pdf_buffer "application/pdf"
            ("attachment; filename=" ++ filename))
  end.

End ReportGenerators.

(* ===================================================================== *)
(** * Tournament summary: the counts *)
(* ===================================================================== *)

(** The counting queries of [get_tournament_summary]. Its [team_count]
    reads a column of the team table that this model does not carry, and
    its [completion_rate] is a rounded floating-point quotient; the four
    counts below are the other computed fields of the answer. *)

(** [for stage in MatchStage] *)
Definition MatchStage_members : list MatchStage :=
  [QUALIFYING; SEMIFINAL; THIRD_PLACE; FINAL; TRAINING].

(** [match_stats = db.query(Match).filter(Match.tournament_id == tournament_id)] *)
Definition match_stats (db : Session) (tournament_id : Z) : list Match :=
  filter (fun m => m_tournament_id m =? tournament_id) (matches db).

(** [match_stats.count()] *)
Definition total_matches (db : Session) (tournament_id : Z) : nat :=
  List.length (match_stats db tournament_id).

(** [match_stats.filter(Match.status == MatchStatus.COMPLETED).count()] *)
Definition completed_matches (db : Session) (tournament_id : Z) : nat :=
  List.length (filter (fun m => status_eqb (status m) COMPLETED)
                 (match_stats db tournament_id)).

(** The loop that fills [stage_counts]: a stage gets an entry when at
    least one match of the tournament is of that stage. The entries are
    keyed by the stage, in the order of the enumeration. *)
Definition stage_counts (db : Session) (tournament_id : Z) : list (MatchStage * nat) :=
  flat_map
    (fun st =>
       let count :=
         List.length (filter (fun m => stage_eqb (stage m) st)
                        (match_stats db tournament_id)) in
       if Nat.ltb 0 count then [(st, count)] else [])
    MatchStage_members.

(** [db.query(Goal).join(Match).filter(Match.tournament_id == tournament_id).count()] *)
Definition total_goals (db : Session) (tournament_id : Z) : nat :=
  List.length (flat_map goals (match_stats db tournament_id)).

(* ===================================================================== *)
(** * Vocabulary of the further statements *)
(* ===================================================================== *)

(** The primary keys of the recipient table. *)
Definition recipient_ids (db : Session) : list Z := map r_id (recipients db).

(** The group blocks of a standings list as the layout loop sees them:
    the positions where the group id differs from the one before. *)
Fixpoint group_runs (current : option string) (l : list Standing) : nat :=
  match l with
  | [] => 0
  | s :: l' =>
      ((if group_changed (s_group_id s) current then 1 else 0)
       + group_runs (Some (s_group_id s)) l')%nat
  end.

(** The matches column header, drawn at x = 100 mm by the header block
    and by nothing else. *)
Definition is_column_header (o : op) : bool :=
  match o with
  | DrawString x _ _ => x =? 100
  | _ => false
  end.

(** A string drawn in the team name column, x = 45 mm. *)
Definition is_name_cell (o : op) : bool :=
  match o with
  | DrawString x _ _ => x =? 45
  | _ => false
  end.

(** The font of a [setFont]; other operations select none. *)
Definition selects_font (font_name : string) (o : op) : bool :=
  match o with
  | SetFont name _ => String.eqb name font_name
  | _ => true
  end.

(** The number of characters of a UTF-8 string. *)
Fixpoint utf8_length (s : string) : nat :=
  match s with
  | EmptyString => O
  | String c rest =>
      if Py.is_continuation c then utf8_length rest else S (utf8_length rest)
  end.

(** The operations issued on a canvas so far that satisfy [p]. *)
Definition issued (p : op -> bool) (c : Canvas) : list op := filter p (stream c).

(** The name a team is shown under: its short name, unless that is
    absent or empty. *)
Definition display_name (t : Team) : string :=
  match short_name t with
  | Some (String c s) => String c s
  | _ => team_name t
  end.

(** A drawn operation is well drawn when a [setFont] names the font of
    the document and a string of the team name column has at most 15
    characters. *)
Definition well_drawn (font_name : string) (o : op) : Prop :=
  selects_font font_name o = true
  /\ (is_name_cell o = true -> (utf8_length (op_text o) <= 15)%nat).

(** The distinct group ids of a standings list. *)
Definition group_ids (l : list Standing) : list string :=
  nodup string_dec (map s_group_id l).

(** The order of the standings query: by group id, strings compared
    byte by byte, then by rank. *)
Definition standing_le (a b : Standing) : Prop :=
  String.ltb (s_group_id a) (s_group_id b) = true
  \/ (s_group_id a = s_group_id b /\ rank a <= rank b).

(** The order of the two match queries. *)
Definition venue_order_key (m : Match) : Py.key := (m_venue_id m, match_order m).

(* ===================================================================== *)
(** * The report service *)
(* ===================================================================== *)


(* ===================================================================== *)
(** * Vocabulary: rows on the page, block sizes, a recipient table *)
(* ===================================================================== *)

(** A data row drawn within its page: the rank cell stands between the
    bottom edge, y = 0, and the top edge, y = 297 mm. *)
Definition is_row_on_page (o : op) : bool :=
  match o with
  | DrawString x y _ => (x =? 32) && (0 <=? y) && (y <=? A4_height)
  | _ => false
  end.

(** The data rows rendered on a page, and on all the pages of a
    document. *)
Definition rows_on_page (p : page) : nat := List.length (filter is_row_on_page p).

Definition rows_rendered (doc : list page) : nat := list_sum (map rows_on_page doc).

(** Every group block of the list has at most [n] rows; [used] rows of
    the block of [current] are already counted. *)
Fixpoint blocks_at_most (n : nat) (current : option string) (used : nat)
    (l : list Standing) : bool :=
  match l with
  | [] => true
  | s :: l' =>
      let used' := if group_changed (s_group_id s) current then 1%nat else S used in
      (Nat.leb used' n && blocks_at_most n (Some (s_group_id s)) used' l')%bool
  end.


(** Groups of 13, 14 and 15 teams: the third header is drawn at 81 mm,
    just above the threshold, on the first page. *)
Definition three_groups_db : Session :=
  session_of_standings
    (map (standing_of "A") (seq 1 13) ++ map (standing_of "B") (seq 1 14)
     ++ map (standing_of "C") (seq 1 15))%list.

(** A session whose recipient table has three rows, of two tournaments. *)
Definition registry_db : Session :=
  mkSession [sample_tournament; mkTournament 2 "新人戦" None None None] [] [] [] [] []
    [ mkRecipient 1 1 "埼玉新聞" "スポーツ部";
      mkRecipient 2 2 "テレビ埼玉" "報道部";
      mkRecipient 3 1 "イシクラ" "" ].

(* ===================================================================== *)
(** * Lemmas on the built-ins *)
(* ===================================================================== *)

Lemma append_nil_r (s : string) : s ++ "" = s.
Proof. induction s as [| c s IH]; simpl; [reflexivity | now rewrite IH]. Qed.

Lemma append_assoc (a b c : string) : (a ++ b) ++ c = a ++ b ++ c.
Proof. induction a as [| x a IH]; simpl; [reflexivity | now rewrite IH]. Qed.

(** [x or 0] is [x] with [None] read as [0]. *)
Lemma or_zero_default (o : option Z) :
  Py.or_zero o = match o with Some n => n | None => 0 end.
Proof.
  destruct o as [n |]; simpl; [| reflexivity].
  destruct (Z.eqb_spec n 0) as [-> | _]; reflexivity.
Qed.

Section SortedBy.
Context {A : Type} (ltb : A -> A -> bool).

Lemma insert_perm (x : A) (l : list A) :
  Permutation (Py.insert ltb x l) (x :: l).
Proof.
  induction l as [| y l IH]; simpl; [reflexivity |].
  destruct (ltb y x); [| reflexivity].
  rewrite IH. apply perm_swap.
Qed.

Lemma sorted_by_perm (l : list A) : Permutation (Py.sorted_by ltb l) l.
Proof.
  induction l as [| x l IH]; simpl; [constructor |].
  rewrite insert_perm. now constructor.
Qed.

Lemma sorted_by_In (l : list A) (x : A) : In x (Py.sorted_by ltb l) <-> In x l.
Proof.
  split; apply Permutation_in; [| symmetry]; apply sorted_by_perm.
Qed.

Lemma sorted_by_length (l : list A) :
  List.length (Py.sorted_by ltb l) = List.length l.
Proof. apply Permutation_length, sorted_by_perm. Qed.

(** Stability: an insertion only moves [x] past elements that are
    strictly smaller, so a filter that [ltb] cannot tell apart from [x]
    sees the input order. *)
Lemma insert_filter (p : A -> bool) (x : A) (l : list A) :
  (forall y, ltb y x = true -> p x = true -> p y = false) ->
  filter p (Py.insert ltb x l) = filter p (x :: l).
Proof.
  intros Hp. induction l as [| y l IH]; [reflexivity |].
  simpl. destruct (ltb y x) eqn:E; [| reflexivity].
  simpl in *. rewrite IH.
  destruct (p x) eqn:Px; [| reflexivity].
  now rewrite (Hp y E eq_refl).
Qed.

End SortedBy.

Lemma key_ltb_false_le (a b : Py.key) : Py.key_ltb b a = false -> Py.key_le a b.
Proof.
  unfold Py.key_ltb, Py.key_le. intros H.
  apply orb_false_iff in H as [H1 H2].
  apply Z.ltb_ge in H1.
  apply andb_false_iff in H2 as [H2 | H2].
  - apply Z.eqb_neq in H2. lia.
  - apply Z.ltb_ge in H2. lia.
Qed.

Lemma key_ltb_true_le (a b : Py.key) : Py.key_ltb a b = true -> Py.key_le a b.
Proof.
  unfold Py.key_ltb, Py.key_le. intros H.
  apply orb_true_iff in H as [H | H].
  - apply Z.ltb_lt in H. lia.
  - apply andb_true_iff in H as [H1 H2].
    apply Z.eqb_eq in H1. apply Z.ltb_lt in H2. lia.
Qed.

Section SortedKey.
Context {A : Type} (k : A -> Py.key).

Let le (a b : A) : Prop := Py.key_le (k a) (k b).
Let lt (a b : A) : bool := Py.key_ltb (k a) (k b).

Lemma insert_HdRel (x a : A) (l : list A) :
  le a x -> HdRel le a l -> HdRel le a (Py.insert lt x l).
Proof.
  intros Hax Hl. destruct l as [| y l]; simpl.
  - now constructor.
  - destruct (lt y x); constructor; [now inversion Hl | exact Hax].
Qed.

Lemma insert_Sorted (x : A) (l : list A) :
  Sorted le l -> Sorted le (Py.insert lt x l).
Proof.
  induction l as [| y l IH]; intros Hs; simpl.
  - repeat constructor.
  - inversion Hs as [| ? ? Hs' Hhd]; subst.
    destruct (lt y x) eqn:E.
    + constructor; [now apply IH |].
      apply insert_HdRel; [| assumption].
      now apply key_ltb_true_le.
    + constructor; [assumption |].
      constructor. now apply key_ltb_false_le.
Qed.

(** [sorted(xs, key=k)] is ascending in [k]. *)
Lemma sorted_Sorted (l : list A) : Sorted le (Py.sorted k l).
Proof.
  induction l as [| x l IH]; simpl; [constructor |].
  now apply insert_Sorted.
Qed.

(** ... and stable: the elements of any one key keep their input order. *)
Lemma sorted_stable (c : Py.key) (l : list A) :
  filter (fun a => (fst (k a) =? fst c) && (snd (k a) =? snd c))%bool (Py.sorted k l)
  = filter (fun a => (fst (k a) =? fst c) && (snd (k a) =? snd c))%bool l.
Proof.
  induction l as [| x l IH]; [reflexivity |].
  unfold Py.sorted in *. simpl Py.sorted_by.
  rewrite insert_filter.
  - simpl. now rewrite IH.
  - intros y Hlt Hx. unfold Py.key_ltb in Hlt.
    apply andb_true_iff in Hx as [Hx1 Hx2].
    apply Z.eqb_eq in Hx1. apply Z.eqb_eq in Hx2.
    apply andb_false_iff.
    apply orb_true_iff in Hlt as [Hlt | Hlt].
    + apply Z.ltb_lt in Hlt. left. apply Z.eqb_neq. lia.
    + apply andb_true_iff in Hlt as [H1 H2].
      apply Z.ltb_lt in H2. right. apply Z.eqb_neq. lia.
Qed.

End SortedKey.

(* ===================================================================== *)
(** * Lemmas on the queries *)
(* ===================================================================== *)

Lemma stage_eqb_eq (a b : MatchStage) : stage_eqb a b = true <-> a = b.
Proof. destruct a, b; simpl; split; intros H; try reflexivity; discriminate. Qed.

Lemma status_eqb_eq (a b : MatchStatus) : status_eqb a b = true <-> a = b.
Proof. destruct a, b; simpl; split; intros H; try reflexivity; discriminate. Qed.

Lemma date_eqb_eq (a b : date) : date_eqb a b = true <-> a = b.
Proof.
  destruct a as [y1 m1 d1], b as [y2 m2 d2]. unfold date_eqb. simpl.
  rewrite !andb_true_iff, !Nat.eqb_eq. split.
  - intros [[-> ->] ->]. reflexivity.
  - intros H. injection H as -> -> ->. auto.
Qed.

Lemma filter_filter {A : Type} (f g : A -> bool) (l : list A) :
  filter f (filter g l) = filter (fun x => g x && f x)%bool l.
Proof.
  induction l as [| x l IH]; [reflexivity |].
  simpl. destruct (g x); simpl; [destruct (f x) |]; now rewrite IH.
Qed.

Lemma filter_venue_spec (venue_id : option Z) (q : list Match) :
  filter_venue venue_id q = filter (venue_selected venue_id) q.
Proof.
  assert (Hall : filter (fun _ : Match => true) q = q).
  { induction q as [| x q IH]; simpl; [reflexivity | now rewrite IH]. }
  unfold filter_venue, venue_selected, Py.truthy_int.
  destruct venue_id as [v |]; [| now rewrite Hall].
  destruct (v =? 0); simpl; [now rewrite Hall | reflexivity].
Qed.

Lemma report_data_query_In db tournament_id target_date venue_id (m : Match) :
  In m (report_data_query db tournament_id target_date venue_id) ->
  In m (matches db) /\ m_tournament_id m = tournament_id
  /\ match_date m = target_date /\ stage m <> TRAINING.
Proof.
  unfold report_data_query, order_by_venue_order, Py.sorted. intros H.
  apply sorted_by_In in H. rewrite filter_venue_spec in H.
  apply filter_In in H as [H _]. apply filter_In in H as [Hin H].
  apply andb_true_iff in H as [H Hst]. apply andb_true_iff in H as [Ht Hd].
  repeat split; [assumption | now apply Z.eqb_eq | now apply date_eqb_eq |].
  intros E. apply stage_eqb_eq in E. rewrite E in Hst. discriminate.
Qed.

Lemma match_reports_query_In db tournament_id target_date venue_id (m : Match) :
  In m (match_reports_query db tournament_id target_date venue_id) ->
  In m (matches db) /\ m_tournament_id m = tournament_id
  /\ match_date m = target_date /\ status m = COMPLETED /\ stage m <> TRAINING.
Proof.
  unfold match_reports_query, order_by_venue_order, Py.sorted. intros H.
  apply sorted_by_In in H. rewrite filter_venue_spec in H.
  apply filter_In in H as [H _]. apply filter_In in H as [Hin H].
  apply andb_true_iff in H as [H Hst]. apply andb_true_iff in H as [H Hc].
  apply andb_true_iff in H as [Ht Hd].
  repeat split; [assumption | now apply Z.eqb_eq | now apply date_eqb_eq
                | now apply status_eqb_eq |].
  intros E. apply stage_eqb_eq in E. rewrite E in Hst. discriminate.
Qed.

Lemma report_data_query_drop_training db tournament_id target_date venue_id :
  report_data_query (drop_training db) tournament_id target_date venue_id
  = report_data_query db tournament_id target_date venue_id.
Proof.
  unfold report_data_query, drop_training. simpl. rewrite filter_filter.
  do 2 f_equal. apply filter_ext. intros m.
  destruct (stage_eqb (stage m) TRAINING); simpl; [| reflexivity].
  now rewrite andb_false_r.
Qed.

Lemma match_reports_query_drop_training db tournament_id target_date venue_id :
  match_reports_query (drop_training db) tournament_id target_date venue_id
  = match_reports_query db tournament_id target_date venue_id.
Proof.
  unfold match_reports_query, drop_training. simpl. rewrite filter_filter.
  do 2 f_equal. apply filter_ext. intros m.
  destruct (stage_eqb (stage m) TRAINING); simpl; [| reflexivity].
  now rewrite andb_false_r.
Qed.

(* ===================================================================== *)
(** * Training matches and unplayed matches *)
(* ===================================================================== *)

(** C1. A match whose stage is training is in the result of neither
    [GET /data] nor [GET /match-reports], whatever the date and the venue
    asked for; deleting every training match from the database changes
    the answer of neither handler. *)
Theorem training_matches_excluded :
  forall (db : Session) (tournament_id : Z) (target_date : date)
         (venue_id : option Z) (m : Match),
    stage m = TRAINING ->
    (forall now r,
        get_report_data db tournament_id target_date venue_id now = Ok r ->
        ~ In m (rd_matches r))
    /\ (exists ms,
          get_match_reports db tournament_id target_date venue_id
          = Ok (map match_report ms)
          /\ incl ms (matches db) /\ ~ In m ms)
    /\ (forall now,
          get_report_data (drop_training db) tournament_id target_date venue_id now
          = get_report_data db tournament_id target_date venue_id now)
    /\ get_match_reports (drop_training db) tournament_id target_date venue_id
       = get_match_reports db tournament_id target_date venue_id.
Proof.
  intros db tid d v m Hm. repeat split.
  - intros now r H. unfold get_report_data in H.
    destruct (find_tournament db tid); [| discriminate].
    injection H as <-. simpl. intros Hin.
    apply report_data_query_In in Hin. tauto.
  - exists (match_reports_query db tid d v). repeat split.
    + intros x Hx. now apply match_reports_query_In in Hx.
    + intros Hin. apply match_reports_query_In in Hin. tauto.
  - intros now. unfold get_report_data.
    rewrite report_data_query_drop_training. reflexivity.
  - unfold get_match_reports.
    now rewrite match_reports_query_drop_training.
Qed.

(** The training match of the sample day is completed and of the day
    asked for; no report is made of it. *)
Lemma training_matches_excluded_sample :
  stage training_match = TRAINING
  /\ In training_match (matches sample_db)
  /\ (exists ms,
        get_match_reports sample_db 1 day1 None = Ok (map match_report ms)
        /\ incl ms (matches sample_db) /\ ~ In training_match ms)
  /\ get_match_reports (drop_training sample_db) 1 day1 None
     = get_match_reports sample_db 1 day1 None.
Proof.
  split; [reflexivity |]. split; [simpl; tauto |].
  destruct (training_matches_excluded sample_db 1 day1 None training_match eq_refl)
    as [_ [H2 [_ H4]]].
  split; [exact H2 | exact H4].
Defined.

(** C3. [GET /match-reports] answers with one report for each match of
    the scope that is completed and not a training match, and with nothing
    else: the reported matches are, up to order, those rows of the table,
    so a match that is not completed has no report. *)
Theorem match_reports_completed_only :
  forall (db : Session) (tournament_id : Z) (target_date : date)
         (venue_id : option Z),
    exists ms,
      get_match_reports db tournament_id target_date venue_id
      = Ok (map match_report ms)
      /\ Permutation ms
           (filter (fun m => in_scope tournament_id target_date venue_id m
                             && status_eqb (status m) COMPLETED
                             && negb (stage_eqb (stage m) TRAINING))
              (matches db))
      /\ Forall (fun m => status m = COMPLETED) ms
      /\ List.length (map match_report ms)
         = List.length
             (filter (fun m => in_scope tournament_id target_date venue_id m
                               && status_eqb (status m) COMPLETED
                               && negb (stage_eqb (stage m) TRAINING))
                (matches db)).
Proof.
  intros db tid d v. exists (match_reports_query db tid d v).
  assert (HP : Permutation (match_reports_query db tid d v)
                 (filter (fun m => in_scope tid d v m
                                   && status_eqb (status m) COMPLETED
                                   && negb (stage_eqb (stage m) TRAINING))
                    (matches db))).
  { unfold match_reports_query, order_by_venue_order, Py.sorted.
    rewrite sorted_by_perm, filter_venue_spec, filter_filter.
    erewrite filter_ext; [reflexivity |].
    intros m. unfold in_scope.
    destruct (m_tournament_id m =? tid), (date_eqb (match_date m) d),
      (status_eqb (status m) COMPLETED), (stage_eqb (stage m) TRAINING),
      (venue_selected v m); reflexivity. }
  split; [reflexivity |]. split; [exact HP |]. split.
  - apply Forall_forall. intros m Hin.
    apply match_reports_query_In in Hin. tauto.
  - rewrite length_map. now apply Permutation_length.
Qed.

(* ===================================================================== *)
(** * Score strings and goal lines *)
(* ===================================================================== *)

(** C2. The three score strings of a report are built from the four half
    scores with an absent score read as 0: first half, second half, and
    the sums of the two halves, home before away, joined by a hyphen. *)
Theorem score_strings :
  forall m : Match,
    let h1 := score_or_zero (home_score_half1 m) in
    let h2 := score_or_zero (home_score_half2 m) in
    let a1 := score_or_zero (away_score_half1 m) in
    let a2 := score_or_zero (away_score_half2 m) in
    score_half1 (match_report m) = Py.str h1 ++ "-" ++ Py.str a1
    /\ score_half2 (match_report m) = Py.str h2 ++ "-" ++ Py.str a2
    /\ score_total (match_report m) = Py.str (h1 + h2) ++ "-" ++ Py.str (a1 + a2).
Proof.
  intros m. unfold match_report, score_or_zero. simpl.
  rewrite !or_zero_default. repeat split.
Qed.

(** The example of the specification: 2 and 1 at home, 0 and 1 away. *)
Example half_time_and_total_example :
  score_half1 (match_report played_match) = "2-0"
  /\ score_half2 (match_report played_match) = "1-1"
  /\ score_total (match_report played_match) = "3-1".
Proof. repeat split. Qed.

(** All four half scores absent: the strings are those of a 0-0 match. *)
Example absent_scores_example :
  score_half1 (match_report scheduled_match) = "0-0"
  /\ score_total (match_report scheduled_match) = "0-0".
Proof. repeat split. Qed.

Lemma Sorted_map {A B : Type} (f : A -> B) (R : B -> B -> Prop) (l : list A) :
  Sorted (fun a b => R (f a) (f b)) l -> Sorted R (map f l).
Proof.
  induction 1 as [| a l Hs IH Hhd]; simpl; constructor; [assumption |].
  destruct Hhd; simpl; constructor; assumption.
Qed.

Lemma goal_report_display (g : Goal) :
  display_text (goal_report g)
  = half_text (half g) ++ Py.str (minute g) ++ "分 " ++ team_name (goal_team g)
    ++ " " ++ player_name g
    ++ marker (is_own_goal g) "(OG)" ++ marker (is_penalty g) "(PK)".
Proof.
  unfold goal_report, marker. simpl.
  destruct (is_own_goal g), (is_penalty g); simpl;
    repeat (rewrite append_assoc; simpl);
    rewrite ?append_nil_r; reflexivity.
Qed.

(** C4. The goal lines of a report are the goals of the match, each
    rendered once, in ascending order of (half, minute). A line starts
    with the label of its half, and the label of half 1 is not the label
    of half 2. The own-goal marker and the penalty marker are appended one
    after the other, each when its own flag is set. *)
Theorem goal_lines_sorted_and_marked :
  forall m : Match,
    Sorted (fun a b => Py.key_le (gr_half a, gr_minute a) (gr_half b, gr_minute b))
      (mr_goals (match_report m))
    /\ Permutation (mr_goals (match_report m)) (map goal_report (goals m))
    /\ (forall g : Goal,
          gr_half (goal_report g) = half g
          /\ gr_minute (goal_report g) = minute g
          /\ display_text (goal_report g)
             = half_text (half g) ++ Py.str (minute g) ++ "分 "
               ++ team_name (goal_team g) ++ " " ++ player_name g
               ++ marker (is_own_goal g) "(OG)" ++ marker (is_penalty g) "(PK)")
    /\ half_text 1 = "前半"
    /\ half_text 2 = "後半"
    /\ String.eqb (half_text 1) (half_text 2) = false.
Proof.
  intros m. split; [| split; [| split]].
  - unfold match_report. simpl. apply Sorted_map. simpl.
    apply (sorted_Sorted goal_key).
  - unfold match_report. simpl. apply Permutation_map, sorted_by_perm.
  - intros g. split; [reflexivity |]. split; [reflexivity |].
    apply goal_report_display.
  - repeat split.
Qed.

(** The example of the specification: goals at (1,10), (2,5), (1,40) are
    rendered in the order (1,10), (1,40), (2,5); the second-half goal is
    an own goal from a penalty and carries both markers. *)
Example goal_lines_example :
  map (fun g => (gr_half g, gr_minute g)) (mr_goals (match_report played_match))
  = [(1, 10); (1, 40); (2, 5)]
  /\ map display_text (mr_goals (match_report played_match))
     = [ "前半10分 浦和南ジュニア 田中";
         "前半40分 浦和南ジュニア 佐藤(PK)";
         "後半5分 大宮FC 鈴木(OG)(PK)" ].
Proof. split; reflexivity. Qed.

(* ===================================================================== *)
(** * Missing tournament *)
(* ===================================================================== *)

(** [GET /data] looks the tournament up first and raises 404 when there
    is none. *)
Lemma get_report_data_not_found db tournament_id target_date venue_id now :
  find_tournament db tournament_id = None ->
  get_report_data db tournament_id target_date venue_id now
  = Raise (tournament_not_found tournament_id).
Proof. intros H. unfold get_report_data. now rewrite H. Qed.

(** [GET /match-reports] never raises: it has no tournament lookup. *)
Lemma get_match_reports_ok db tournament_id target_date venue_id :
  is_ok (get_match_reports db tournament_id target_date venue_id) = true.
Proof. reflexivity. Qed.

(** C7, at a tournament id that no row carries. [GET /data] raises 404;
    [GET /match-reports] answers with an empty list instead of raising. *)
Theorem match_reports_missing_tournament :
  find_tournament sample_db 99 = None
  /\ raised_status (get_report_data sample_db 99 day1 None "2025-03-29T18:00:00")
     = Some HTTP_404_NOT_FOUND
  /\ get_match_reports sample_db 99 day1 None = Ok []
  /\ raised_status (get_match_reports sample_db 99 day1 None) = None.
Proof. repeat split. Qed.

(* ===================================================================== *)
(** * Sender settings: partial update *)
(* ===================================================================== *)

Lemma apply_update_spec (t : Tournament) (s : SenderSettingsUpdate) :
  apply_update t (model_dump_exclude_unset s)
  = mkTournament (t_id t) (t_name t)
      (supplied_or_prior (upd_sender_organization s) (sender_organization t))
      (supplied_or_prior (upd_sender_name s) (sender_name t))
      (supplied_or_prior (upd_sender_contact s) (sender_contact t)).
Proof.
  destruct s as [[o |] [n |] [c |]], t as [i nm so sn sc]; reflexivity.
Qed.

Lemma find_tournament_id db tournament_id t :
  find_tournament db tournament_id = Some t -> t_id t = tournament_id.
Proof.
  unfold find_tournament. intros H.
  apply find_some in H as [_ H]. now apply Z.eqb_eq.
Qed.

Lemma find_write_same ts tournament_id t t' :
  find (fun x => t_id x =? tournament_id) ts = Some t ->
  t_id t' = tournament_id ->
  find (fun x => t_id x =? tournament_id) (write_tournament ts tournament_id t')
  = Some t'.
Proof.
  intros Hf Hid. induction ts as [| x ts IH]; [discriminate |].
  simpl in *. destruct (t_id x =? tournament_id) eqn:E; simpl.
  - now rewrite Hid, Z.eqb_refl.
  - rewrite E. now apply IH.
Qed.

Lemma find_write_other ts tournament_id other t' :
  t_id t' = tournament_id -> other <> tournament_id ->
  find (fun x => t_id x =? other) (write_tournament ts tournament_id t')
  = find (fun x => t_id x =? other) ts.
Proof.
  intros Hid Hne. induction ts as [| x ts IH]; [reflexivity |].
  simpl. destruct (Z.eqb_spec (t_id x) tournament_id) as [Ex | Ex]; simpl.
  - destruct (Z.eqb_spec (t_id t') other) as [E1 | _]; [congruence |].
    destruct (Z.eqb_spec (t_id x) other) as [E2 | _]; [congruence | reflexivity].
  - destruct (t_id x =? other); [reflexivity | exact IH].
Qed.

(** C8. A PATCH of the sender settings of an existing tournament sets
    the fields the request supplies and keeps the prior value of every
    field it omits. The id and the name of the tournament, every other
    tournament and every other table are as before. *)
Theorem update_sender_settings_partial :
  forall (db : Session) (tournament_id : Z) (settings : SenderSettingsUpdate)
         (t : Tournament),
    find_tournament db tournament_id = Some t ->
    exists db' t',
      update_sender_settings db tournament_id settings
      = Ok (db', mkSenderSettingsResponse (sender_organization t') (sender_name t')
                   (sender_contact t'))
      /\ find_tournament db' tournament_id = Some t'
      /\ sender_organization t'
         = supplied_or_prior (upd_sender_organization settings) (sender_organization t)
      /\ sender_name t'
         = supplied_or_prior (upd_sender_name settings) (sender_name t)
      /\ sender_contact t'
         = supplied_or_prior (upd_sender_contact settings) (sender_contact t)
      /\ t_id t' = t_id t /\ t_name t' = t_name t
      /\ (forall other, other <> tournament_id ->
            find_tournament db' other = find_tournament db other)
      /\ venues db' = venues db /\ teams db' = teams db /\ groups db' = groups db
      /\ matches db' = matches db /\ standings db' = standings db
      /\ recipients db' = recipients db.
Proof.
  intros db tid settings t Hf.
  pose proof (find_tournament_id _ _ _ Hf) as Hid.
  unfold update_sender_settings. rewrite Hf.
  rewrite apply_update_spec.
  eexists. eexists. split; [reflexivity |]. simpl.
  split; [| repeat split].
  - unfold find_tournament. simpl. eapply find_write_same; [exact Hf | exact Hid].
  - intros other Hne. unfold find_tournament. simpl.
    now apply find_write_other.
Qed.

(** Only the sender name is supplied: the organization and the contact of
    the sample tournament stay. *)
Lemma update_sender_settings_partial_sample :
  exists db' t',
    update_sender_settings sample_db 1
      (mkSenderSettingsUpdate None (Some (Some "事務局 山田")) None)
    = Ok (db', mkSenderSettingsResponse (sender_organization t') (sender_name t')
                 (sender_contact t'))
    /\ sender_organization t' = Some "県立浦和高校"
    /\ sender_name t' = Some "事務局 山田"
    /\ sender_contact t' = Some "048-000-0000".
Proof.
  destruct (update_sender_settings_partial sample_db 1
              (mkSenderSettingsUpdate None (Some (Some "事務局 山田")) None)
              sample_tournament eq_refl)
    as [db' [t' [H1 [_ [H3 [H4 [H5 _]]]]]]].
  exists db', t'. split; [exact H1 |].
  split; [exact H3 |]. split; [exact H4 | exact H5].
Defined.

(* ===================================================================== *)
(** * Default recipients *)
(* ===================================================================== *)

Lemma add_all_spec (data : list (string * string)) :
  forall (db : Session) (tournament_id : Z),
    let '(db', created) := add_all db tournament_id data in
    recipients db' = (recipients db ++ created)%list
    /\ map (fun r => (r_name r, r_notes r)) created = data
    /\ Forall (fun r => r_tournament_id r = tournament_id) created
    /\ tournaments db' = tournaments db.
Proof.
  induction data as [| [name notes] rest IH]; intros db tid; simpl.
  - rewrite app_nil_r. repeat split. constructor.
  - specialize (IH (fst (db_add_recipient db tid name notes)) tid).
    simpl in IH.
    destruct (add_all _ tid rest) as [db2 created].
    destruct IH as [H1 [H2 [H3 H4]]].
    repeat split.
    + rewrite H1. now rewrite <- app_assoc.
    + simpl. now rewrite H2.
    + constructor; [reflexivity | assumption].
    + exact H4.
Qed.

Lemma filter_all {A : Type} (p : A -> bool) (l : list A) :
  Forall (fun x => p x = true) l -> filter p l = l.
Proof.
  induction 1 as [| x l Hx _ IH]; simpl; [reflexivity |].
  now rewrite Hx, IH.
Qed.

(** C9. On an existing tournament, each call of setup-default appends
    the four default recipients to the table, whatever it holds. After
    two calls the tournament has eight rows more than before, the second
    four a copy of the first four by name and notes: the second call does
    not leave the table as the first one left it. *)
Theorem setup_default_recipients_not_idempotent :
  forall (db : Session) (tournament_id : Z) (t : Tournament),
    find_tournament db tournament_id = Some t ->
    exists db1 c1 db2 c2,
      setup_default_recipients db tournament_id = Ok (db1, c1)
      /\ setup_default_recipients db1 tournament_id = Ok (db2, c2)
      /\ recipients db1 = (recipients db ++ c1)%list
      /\ recipients db2 = (recipients db ++ c1 ++ c2)%list
      /\ map (fun r => (r_name r, r_notes r)) c1 = default_recipients
      /\ map (fun r => (r_name r, r_notes r)) c2 = default_recipients
      /\ List.length (get_recipients db1 tournament_id)
         = (List.length (get_recipients db tournament_id) + 4)%nat
      /\ List.length (get_recipients db2 tournament_id)
         = (List.length (get_recipients db tournament_id) + 8)%nat
      /\ recipients db2 <> recipients db1.
Proof.
  intros db tid t Hf.
  pose proof (add_all_spec default_recipients db tid) as S1.
  destruct (add_all db tid default_recipients) as [db1 c1] eqn:E1.
  destruct S1 as [R1 [N1 [T1 K1]]].
  assert (Hf1 : find_tournament db1 tid = Some t).
  { unfold find_tournament. now rewrite K1. }
  pose proof (add_all_spec default_recipients db1 tid) as S2.
  destruct (add_all db1 tid default_recipients) as [db2 c2] eqn:E2.
  destruct S2 as [R2 [N2 [T2 _]]].
  assert (L1 : List.length c1 = 4%nat).
  { rewrite <- (length_map (fun r => (r_name r, r_notes r))), N1. reflexivity. }
  assert (L2 : List.length c2 = 4%nat).
  { rewrite <- (length_map (fun r => (r_name r, r_notes r))), N2. reflexivity. }
  assert (F1 : filter (fun r => r_tournament_id r =? tid) c1 = c1).
  { apply filter_all. eapply Forall_impl; [| exact T1].
    intros r Hr. now apply Z.eqb_eq. }
  assert (F2 : filter (fun r => r_tournament_id r =? tid) c2 = c2).
  { apply filter_all. eapply Forall_impl; [| exact T2].
    intros r Hr. now apply Z.eqb_eq. }
  exists db1, c1, db2, c2.
  split; [unfold setup_default_recipients; now rewrite Hf, E1 |].
  split; [unfold setup_default_recipients; now rewrite Hf1, E2 |].
  split; [exact R1 |].
  split; [rewrite R2, R1; now rewrite <- app_assoc |].
  split; [exact N1 |]. split; [exact N2 |].
  unfold get_recipients. rewrite R2, R1. rewrite !filter_app, F1, F2.
  rewrite !length_app, L1, L2.
  split; [reflexivity |]. split; [lia |].
  intros E. apply (f_equal (@List.length _)) in E.
  rewrite !length_app, L2 in E. lia.
Qed.

(** Two calls on the sample tournament, which starts with no recipient:
    eight rows, each default name twice. *)
Lemma setup_default_recipients_twice_sample :
  exists db1 c1 db2 c2,
    setup_default_recipients sample_db 1 = Ok (db1, c1)
    /\ setup_default_recipients db1 1 = Ok (db2, c2)
    /\ List.length (get_recipients db1 1) = 4%nat
    /\ List.length (get_recipients db2 1) = 8%nat.
Proof.
  destruct (setup_default_recipients_not_idempotent sample_db 1 sample_tournament eq_refl)
    as [db1 [c1 [db2 [c2 [H1 [H2 [_ [_ [_ [_ [H7 [H8 _]]]]]]]]]]]].
  exists db1, c1, db2, c2.
  split; [exact H1 |]. split; [exact H2 |]. split; [exact H7 | exact H8].
Defined.

(* ===================================================================== *)
(** * A venue id of 0 *)
(* ===================================================================== *)





(* ===================================================================== *)
(** * The group standings document *)
(* ===================================================================== *)

Lemma stream_issue (c : Canvas) (o : op) : stream (issue c o) = (stream c ++ [o])%list.
Proof. unfold stream, issue. simpl. now rewrite app_assoc. Qed.

Lemma stream_showPage (c : Canvas) : stream (showPage c) = stream c.
Proof.
  unfold stream, showPage. simpl.
  rewrite concat_app. simpl. now rewrite !app_nil_r.
Qed.

Lemma concat_save (c : Canvas) : List.concat (save c) = stream c.
Proof.
  unfold save, stream. destruct (code c) as [| o p].
  - now rewrite app_nil_r.
  - rewrite concat_app. simpl. now rewrite app_nil_r.
Qed.


(** ** Rank cells issued by each canvas call *)

Lemma rank_cells_setFont c name size : rank_cells (setFont c name size) = rank_cells c.
Proof.
  unfold rank_cells, setFont. rewrite stream_issue, filter_app. simpl.
  apply app_nil_r.
Qed.

Lemma rank_cells_line c x1 y1 x2 y2 : rank_cells (line c x1 y1 x2 y2) = rank_cells c.
Proof.
  unfold rank_cells, line. rewrite stream_issue, filter_app. simpl.
  apply app_nil_r.
Qed.

Lemma rank_cells_drawString c x y text :
  rank_cells (drawString c x y text)
  = (rank_cells c ++ if x =? 32 then [DrawString x y text] else [])%list.
Proof.
  unfold rank_cells, drawString. rewrite stream_issue, filter_app. simpl.
  reflexivity.
Qed.

Lemma rank_cells_showPage c : rank_cells (showPage c) = rank_cells c.
Proof. unfold rank_cells. now rewrite stream_showPage. Qed.

Create Rewrite HintDb canvas_rows.
#[local] Hint Rewrite rank_cells_setFont rank_cells_line rank_cells_drawString
  rank_cells_showPage : canvas_rows.






(* ===================================================================== *)
(** * Row count of the group standings document *)
(* ===================================================================== *)

Lemma export_group_standings_body h db tournament_id group_id r :
  export_group_standings_pdf h db tournament_id group_id = Ok r ->
  exists tournament,
    find_tournament db tournament_id = Some tournament
    /\ standings_query db tournament_id group_id <> []
    /\ body r = draw_group_standings db (resolve_font h) tournament
                  (standings_query db tournament_id group_id).
Proof.
  unfold export_group_standings_pdf. intros H.
  destruct (find_tournament db tournament_id) as [t |]; [| discriminate].
  destruct (standings_query db tournament_id group_id) as [| s l] eqn:E;
    [discriminate |].
  destruct (reportlab_installed h); simpl in H; [| discriminate].
  injection H as <-. exists t. repeat split. discriminate.
Qed.


(* ===================================================================== *)
(** * The footer of the group standings document *)
(* ===================================================================== *)

Lemma footer_count_app (p q : page) :
  footer_count (p ++ q)%list = (footer_count p + footer_count q)%nat.
Proof. unfold footer_count. now rewrite filter_app, length_app. Qed.

Lemma no_footer_issue (c : Canvas) (o : op) :
  is_footer o = false -> no_footer c -> no_footer (issue c o).
Proof.
  intros Ho [Hf Hc]. split; [exact Hf |].
  simpl. rewrite footer_count_app, Hc. unfold footer_count. simpl.
  now rewrite Ho.
Qed.

Lemma no_footer_showPage (c : Canvas) : no_footer c -> no_footer (showPage c).
Proof.
  intros [Hf Hc]. split; [| reflexivity].
  simpl. apply Forall_app. split; [exact Hf |]. now constructor.
Qed.

Ltac not_a_footer := simpl; rewrite ?andb_false_r; reflexivity.

Ltac keep_no_footer :=
  unfold line, drawString, setFont;
  repeat (apply no_footer_issue; [not_a_footer |]).

Lemma no_footer_group_header db font_name st standing :
  no_footer (canvas st) -> no_footer (canvas (group_header db font_name st standing)).
Proof.
  intros H. unfold group_header.
  destruct (_ <? 80); simpl; keep_no_footer;
    [now apply no_footer_showPage | exact H].
Qed.

Lemma no_footer_standing_row db font_name st standing :
  no_footer (canvas st) -> no_footer (canvas (standing_row db font_name st standing)).
Proof. intros H. unfold standing_row. simpl. keep_no_footer. exact H. Qed.

Lemma no_footer_loop db font_name (l : list Standing) :
  forall st,
    no_footer (canvas st) ->
    no_footer (canvas (fold_left (layout_step db font_name) l st)).
Proof.
  induction l as [| s l IH]; intros st H; simpl; [exact H |].
  apply IH. unfold layout_step. apply no_footer_standing_row.
  destruct (group_changed _ _); [now apply no_footer_group_header | exact H].
Qed.

Lemma save_after_footer (c : Canvas) (font_name : string) :
  save (drawString (setFont c font_name 8) 30 15 footer_text)
  = (finished c ++ [code c ++ [SetFont font_name 8; DrawString 30 15 footer_text]])%list.
Proof.
  unfold save, drawString, setFont, issue. simpl.
  rewrite <- app_assoc. simpl.
  destruct (code c); reflexivity.
Qed.

(** The document is the pages closed by the loop, none of which has the
    footer, and a last page that has it once. *)
Lemma draw_group_standings_footer db font_name tournament (l : list Standing) :
  exists earlier last,
    draw_group_standings db font_name tournament l = (earlier ++ [last])%list
    /\ Forall (fun p => footer_count p = 0%nat) earlier
    /\ footer_count last = 1%nat
    /\ In (DrawString 30 15 footer_text) last.
Proof.
  unfold draw_group_standings.
  match goal with
  | |- context [fold_left ?f l ?st0] =>
      assert (H : no_footer (canvas (fold_left f l st0)));
      [apply no_footer_loop | destruct H as [Hf Hc]; set (st := fold_left f l st0) in *]
  end.
  { simpl. keep_no_footer. split; [constructor | reflexivity]. }
  change "浦和カップ運営事務局" with footer_text.
  rewrite save_after_footer.
  eexists. eexists. split; [reflexivity |].
  split; [exact Hf |]. split.
  - rewrite footer_count_app, Hc. reflexivity.
  - apply in_or_app. right. simpl. tauto.
Qed.

(** C5, as the handler has it. The footer line is drawn once per
    document, at x = 30 mm, y = 15 mm of its last page; the pages closed
    before by a page break have no footer. *)
Theorem footer_on_last_page_only :
  forall (h : Host) (db : Session) (tournament_id : Z) (group_id : option string)
         (r : StreamingResponse (list page)),
    export_group_standings_pdf h db tournament_id group_id = Ok r ->
    exists earlier last,
      body r = (earlier ++ [last])%list
      /\ Forall (fun p => footer_count p = 0%nat) earlier
      /\ footer_count last = 1%nat
      /\ In (DrawString 30 15 footer_text) last.
Proof.
  intros h db tid gid r H.
  apply export_group_standings_body in H as [t [_ [_ ->]]].
  apply draw_group_standings_footer.
Qed.

(** Five groups of 6 teams make two pages. The first page has no
    footer. *)
Lemma footer_missing_on_first_page :
  match export_group_standings_pdf sample_host five_groups_db 1 None with
  | Ok r => map footer_count (body r)
  | Raise _ => []
  end = [0%nat; 1%nat].
Proof. vm_compute. reflexivity. Qed.

Lemma footer_on_last_page_only_five_groups :
  exists r earlier last,
    export_group_standings_pdf sample_host five_groups_db 1 None = Ok r
    /\ body r = (earlier ++ [last])%list
    /\ Forall (fun p => footer_count p = 0%nat) earlier
    /\ footer_count last = 1%nat.
Proof.
  eexists.
  destruct (footer_on_last_page_only sample_host five_groups_db 1 None _ eq_refl)
    as [earlier [last [H1 [H2 [H3 _]]]]].
  exists earlier, last.
  split; [reflexivity |]. split; [exact H1 |]. split; [exact H2 | exact H3].
Defined.

(* ===================================================================== *)
(** * Recipients: keys, creation and deletion *)
(* ===================================================================== *)

Lemma next_recipient_id_above (rs : list ReportRecipient) (r : ReportRecipient) :
  In r rs -> r_id r < next_recipient_id rs.
Proof.
  unfold next_recipient_id. intros H.
  assert (Hle : r_id r <= fold_right Z.max 0 (map r_id rs)).
  { induction rs as [| x rs IH]; [contradiction |].
    cbn [map fold_right]. destruct H as [-> | H]; [| specialize (IH H)].
    - apply Z.le_max_l.
    - etransitivity; [exact IH | apply Z.le_max_r]. }
  lia.
Qed.

Lemma next_recipient_id_fresh (rs : list ReportRecipient) :
  ~ In (next_recipient_id rs) (map r_id rs).
Proof.
  intros H. apply in_map_iff in H as [r [E Hin]].
  apply next_recipient_id_above in Hin. lia.
Qed.

Lemma find_absent_app (rs : list ReportRecipient) (r : ReportRecipient) :
  ~ In (r_id r) (map r_id rs) ->
  find (fun x => r_id x =? r_id r) (rs ++ [r])%list = Some r.
Proof.
  induction rs as [| x rs IH]; simpl; intros H.
  - now rewrite Z.eqb_refl.
  - destruct (Z.eqb_spec (r_id x) (r_id r)) as [E | _]; [tauto |].
    apply IH. tauto.
Qed.

Lemma delete_row_absent_app (rs : list ReportRecipient) (r : ReportRecipient) :
  ~ In (r_id r) (map r_id rs) ->
  delete_row (rs ++ [r])%list (r_id r) = rs.
Proof.
  induction rs as [| x rs IH]; simpl; intros H.
  - now rewrite Z.eqb_refl.
  - destruct (Z.eqb_spec (r_id x) (r_id r)) as [E | _]; [tauto |].
    rewrite IH; tauto.
Qed.

Lemma session_eta (db : Session) :
  mkSession (tournaments db) (venues db) (teams db) (groups db) (matches db)
    (standings db) (recipients db) = db.
Proof. now destruct db. Qed.

(** X1. A created recipient is appended to the list of its tournament under
    a key no row had, can be looked up by that key, and leaves the lists of
    the other tournaments as they were. *)
Theorem create_recipient_listed :
  forall (db : Session) (recipient_data : ReportRecipientCreate) (t : Tournament),
    find_tournament db (rc_tournament_id recipient_data) = Some t ->
    exists db' r,
      create_recipient db recipient_data = Ok (db', r)
      /\ r_tournament_id r = rc_tournament_id recipient_data
      /\ r_name r = rc_name recipient_data
      /\ r_notes r = rc_notes recipient_data
      /\ ~ In (r_id r) (recipient_ids db)
      /\ find_recipient db' (r_id r) = Some r
      /\ get_recipients db' (rc_tournament_id recipient_data)
         = (get_recipients db (rc_tournament_id recipient_data) ++ [r])%list
      /\ (forall other, other <> rc_tournament_id recipient_data ->
            get_recipients db' other = get_recipients db other).
Proof.
  intros db data t Hf. unfold create_recipient. rewrite Hf.
  eexists. eexists. split; [reflexivity |]. simpl.
  pose proof (next_recipient_id_fresh (recipients db)) as Hfresh.
  repeat split.
  - exact Hfresh.
  - unfold find_recipient. simpl.
    apply (find_absent_app (recipients db)
             (mkRecipient (next_recipient_id (recipients db)) (rc_tournament_id data)
                (rc_name data) (rc_notes data))).
    exact Hfresh.
  - unfold get_recipients. simpl. rewrite filter_app. simpl.
    now rewrite Z.eqb_refl.
  - intros other Hne. unfold get_recipients. simpl. rewrite filter_app. simpl.
    destruct (Z.eqb_spec (rc_tournament_id data) other) as [E | _]; [congruence |].
    apply app_nil_r.
Qed.

Lemma create_recipient_listed_sample :
  exists db' r,
    create_recipient sample_db (mkRecipientCreate 1 "埼玉新聞" "スポーツ部") = Ok (db', r)
    /\ find_recipient db' (r_id r) = Some r
    /\ get_recipients db' 1 = (get_recipients sample_db 1 ++ [r])%list.
Proof.
  destruct (create_recipient_listed sample_db
              (mkRecipientCreate 1 "埼玉新聞" "スポーツ部") sample_tournament eq_refl)
    as [db' [r [H1 [_ [_ [_ [_ [H6 [H7 _]]]]]]]]].
  exists db', r. split; [exact H1 |]. split; [exact H6 | exact H7].
Defined.

(** X2. Deleting a recipient right after creating it gives back the session
    from before the creation. *)
Theorem create_then_delete_recipient :
  forall (db db' : Session) (recipient_data : ReportRecipientCreate)
         (r : ReportRecipient),
    create_recipient db recipient_data = Ok (db', r) ->
    delete_recipient db' (r_id r) = Ok db.
Proof.
  intros db db' data r H. unfold create_recipient in H.
  destruct (find_tournament db (rc_tournament_id data)); [| discriminate].
  injection H as <- <-.
  pose proof (next_recipient_id_fresh (recipients db)) as Hfresh.
  set (r := mkRecipient (next_recipient_id (recipients db)) (rc_tournament_id data)
              (rc_name data) (rc_notes data)) in *.
  unfold delete_recipient, find_recipient. simpl. fold r.
  change (next_recipient_id (recipients db)) with (r_id r).
  rewrite (find_absent_app (recipients db) r Hfresh).
  rewrite (delete_row_absent_app (recipients db) r Hfresh).
  now rewrite session_eta.
Qed.

Lemma create_then_delete_recipient_sample :
  exists db' r,
    create_recipient sample_db (mkRecipientCreate 1 "イシクラ" "") = Ok (db', r)
    /\ delete_recipient db' (r_id r) = Ok sample_db.
Proof.
  eexists. eexists. split; [reflexivity |].
  exact (create_then_delete_recipient sample_db _
           (mkRecipientCreate 1 "イシクラ" "") _ eq_refl).
Defined.

Lemma delete_row_length (rs : list ReportRecipient) (recipient_id : Z) (r : ReportRecipient) :
  find (fun x => r_id x =? recipient_id) rs = Some r ->
  S (List.length (delete_row rs recipient_id)) = List.length rs.
Proof.
  induction rs as [| x rs IH]; simpl; [discriminate |].
  destruct (r_id x =? recipient_id); [reflexivity |].
  intros H. simpl. now rewrite IH.
Qed.

Lemma delete_row_In_other (rs : list ReportRecipient) (recipient_id : Z)
    (r : ReportRecipient) :
  r_id r <> recipient_id -> (In r (delete_row rs recipient_id) <-> In r rs).
Proof.
  intros Hne. induction rs as [| x rs IH]; simpl; [tauto |].
  destruct (Z.eqb_spec (r_id x) recipient_id) as [E | _]; simpl.
  - split; [tauto |]. intros [-> | H]; [congruence | exact H].
  - rewrite IH. tauto.
Qed.

Lemma delete_row_ids_incl (rs : list ReportRecipient) (recipient_id : Z) :
  incl (map r_id (delete_row rs recipient_id)) (map r_id rs).
Proof.
  induction rs as [| x rs IH]; simpl; [apply incl_refl |].
  destruct (r_id x =? recipient_id).
  - apply incl_tl, incl_refl.
  - apply incl_cons; [now left | now apply incl_tl].
Qed.

Lemma delete_row_NoDup (rs : list ReportRecipient) (recipient_id : Z) :
  NoDup (map r_id rs) ->
  NoDup (map r_id (delete_row rs recipient_id))
  /\ ~ In recipient_id (map r_id (delete_row rs recipient_id)).
Proof.
  induction rs as [| x rs IH]; simpl; intros H.
  - split; [constructor | tauto].
  - inversion H as [| ? ? Hx Hrs]; subst.
    destruct (Z.eqb_spec (r_id x) recipient_id) as [E | Hne]; simpl.
    + split; [exact Hrs | now rewrite <- E].
    + destruct (IH Hrs) as [H1 H2]. split.
      * constructor; [| exact H1].
        intros Hin. apply Hx. now apply (delete_row_ids_incl rs recipient_id).
      * tauto.
Qed.

(** X3. Deleting an existing recipient takes exactly one row out of the
    table and keeps every row of another key and every other table; when
    the keys of the table are distinct, no row of the deleted key is left. *)
Theorem delete_recipient_removes_row :
  forall (db : Session) (recipient_id : Z) (r : ReportRecipient),
    find_recipient db recipient_id = Some r ->
    exists db',
      delete_recipient db recipient_id = Ok db'
      /\ S (List.length (recipients db')) = List.length (recipients db)
      /\ (forall r', r_id r' <> recipient_id ->
            (In r' (recipients db') <-> In r' (recipients db)))
      /\ (NoDup (recipient_ids db) -> find_recipient db' recipient_id = None)
      /\ tournaments db' = tournaments db /\ venues db' = venues db
      /\ teams db' = teams db /\ groups db' = groups db
      /\ matches db' = matches db /\ standings db' = standings db.
Proof.
  intros db rid r Hf. unfold delete_recipient. rewrite Hf.
  eexists. split; [reflexivity |]. simpl.
  split; [now apply (delete_row_length _ _ r) |].
  split; [intros r' Hne; now apply delete_row_In_other |].
  split; [| repeat split].
  intros Hnd. unfold find_recipient. simpl.
  destruct (find _ _) as [x |] eqn:E; [| reflexivity].
  apply find_some in E as [Hin Hid]. apply Z.eqb_eq in Hid.
  destruct (delete_row_NoDup (recipients db) rid Hnd) as [_ Habs].
  exfalso. apply Habs. apply in_map_iff. exists x. split; assumption.
Qed.

(** The middle row of a table of three is deleted: the first and the
    third row stay, in their order, and key 2 is gone. *)
Lemma delete_recipient_removes_row_sample :
  exists db',
    delete_recipient registry_db 2 = Ok db'
    /\ recipients db'
       = [mkRecipient 1 1 "埼玉新聞" "スポーツ部"; mkRecipient 3 1 "イシクラ" ""]
    /\ In (mkRecipient 3 1 "イシクラ" "") (recipients db')
    /\ find_recipient db' 2 = None
    /\ tournaments db' = tournaments registry_db.
Proof.
  destruct (delete_recipient_removes_row registry_db 2
              (mkRecipient 2 2 "テレビ埼玉" "報道部") eq_refl)
    as [db' [H1 [_ [H3 [H4 [H5 _]]]]]].
  exists db'. split; [exact H1 |].
  split; [injection H1 as <-; reflexivity |].
  split; [apply H3; [discriminate | simpl; tauto] |].
  split; [| exact H5].
  apply H4. unfold recipient_ids. simpl.
  repeat constructor; simpl; intuition discriminate.
Defined.

(* ===================================================================== *)
(** * Sender settings: repetition, empty update, read back *)
(* ===================================================================== *)

Lemma write_tournament_same ts tournament_id t :
  find (fun x => t_id x =? tournament_id) ts = Some t ->
  write_tournament ts tournament_id t = ts.
Proof.
  induction ts as [| x ts IH]; simpl; [reflexivity |].
  destruct (t_id x =? tournament_id).
  - now intros [= ->].
  - intros H. now rewrite IH.
Qed.

Lemma supplied_or_prior_twice u prior :
  supplied_or_prior u (supplied_or_prior u prior) = supplied_or_prior u prior.
Proof. now destruct u. Qed.

Lemma update_sender_settings_ok db tournament_id settings t :
  find_tournament db tournament_id = Some t ->
  let t' := apply_update t (model_dump_exclude_unset settings) in
  update_sender_settings db tournament_id settings
  = Ok (mkSession (write_tournament (tournaments db) tournament_id t')
          (venues db) (teams db) (groups db) (matches db) (standings db)
          (recipients db),
        mkSenderSettingsResponse (sender_organization t') (sender_name t')
          (sender_contact t'))
  /\ find (fun x => t_id x =? tournament_id)
       (write_tournament (tournaments db) tournament_id t') = Some t'.
Proof.
  intros Hf t'. unfold update_sender_settings. rewrite Hf. split; [reflexivity |].
  eapply find_write_same; [exact Hf |].
  unfold t'. rewrite apply_update_spec. simpl.
  now apply find_tournament_id in Hf.
Qed.

(** X6. A PATCH of the sender settings can be repeated: the second run of the
    same request answers what the first answered and leaves the session as
    the first left it. *)
Theorem update_sender_settings_idempotent :
  forall (db db1 : Session) (tournament_id : Z) (settings : SenderSettingsUpdate)
         (resp : SenderSettingsResponse),
    update_sender_settings db tournament_id settings = Ok (db1, resp) ->
    update_sender_settings db1 tournament_id settings = Ok (db1, resp).
Proof.
  intros db db1 tid settings resp H.
  destruct (find_tournament db tid) as [t |] eqn:Hf;
    [| unfold update_sender_settings in H; rewrite Hf in H; discriminate].
  destruct (update_sender_settings_ok db tid settings t Hf) as [E1 F1].
  rewrite E1 in H. injection H as <- <-.
  set (t' := apply_update t (model_dump_exclude_unset settings)) in *.
  set (db1 := mkSession (write_tournament (tournaments db) tid t') (venues db)
                (teams db) (groups db) (matches db) (standings db) (recipients db)).
  assert (Hf1 : find_tournament db1 tid = Some t') by exact F1.
  destruct (update_sender_settings_ok db1 tid settings t' Hf1) as [E2 _].
  rewrite E2.
  assert (Ht : apply_update t' (model_dump_exclude_unset settings) = t').
  { unfold t'. rewrite !apply_update_spec. simpl.
    now rewrite !supplied_or_prior_twice. }
  rewrite Ht. simpl.
  now rewrite (write_tournament_same _ _ _ F1).
Qed.

Lemma update_sender_settings_idempotent_sample :
  exists db1 resp,
    update_sender_settings sample_db 1
      (mkSenderSettingsUpdate (Some None) (Some (Some "山田")) None) = Ok (db1, resp)
    /\ update_sender_settings db1 1
         (mkSenderSettingsUpdate (Some None) (Some (Some "山田")) None) = Ok (db1, resp).
Proof.
  eexists. eexists. split; [reflexivity |].
  exact (update_sender_settings_idempotent sample_db _ 1
           (mkSenderSettingsUpdate (Some None) (Some (Some "山田")) None) _ eq_refl).
Defined.

(** X7. A PATCH whose body sets no field changes nothing: the session is the
    same and the answer is the stored sender block. *)
Theorem update_sender_settings_empty :
  forall (db : Session) (tournament_id : Z) (t : Tournament),
    find_tournament db tournament_id = Some t ->
    update_sender_settings db tournament_id (mkSenderSettingsUpdate None None None)
    = Ok (db, mkSenderSettingsResponse (sender_organization t) (sender_name t)
                (sender_contact t)).
Proof.
  intros db tid t Hf.
  destruct (update_sender_settings_ok db tid (mkSenderSettingsUpdate None None None)
              t Hf) as [E _].
  rewrite E. simpl. rewrite (write_tournament_same _ _ _ Hf).
  now rewrite session_eta.
Qed.

Lemma update_sender_settings_empty_sample :
  update_sender_settings sample_db 1 (mkSenderSettingsUpdate None None None)
  = Ok (sample_db,
        mkSenderSettingsResponse (Some "県立浦和高校") None (Some "048-000-0000")).
Proof.
  exact (update_sender_settings_empty sample_db 1 sample_tournament eq_refl).
Defined.

(** X8. What a PATCH answers is what a GET of the sender settings reads
    afterwards. *)
Theorem sender_settings_read_back :
  forall (db db1 : Session) (tournament_id : Z) (settings : SenderSettingsUpdate)
         (resp : SenderSettingsResponse),
    update_sender_settings db tournament_id settings = Ok (db1, resp) ->
    get_sender_settings db1 tournament_id = Ok resp.
Proof.
  intros db db1 tid settings resp H.
  destruct (find_tournament db tid) as [t |] eqn:Hf;
    [| unfold update_sender_settings in H; rewrite Hf in H; discriminate].
  destruct (update_sender_settings_ok db tid settings t Hf) as [E1 F1].
  rewrite E1 in H. injection H as <- <-.
  unfold get_sender_settings, find_tournament. simpl. now rewrite F1.
Qed.

Lemma sender_settings_read_back_sample :
  exists db1 resp,
    update_sender_settings sample_db 1
      (mkSenderSettingsUpdate None None (Some (Some "fax 048-111-1111"))) = Ok (db1, resp)
    /\ get_sender_settings db1 1 = Ok resp.
Proof.
  eexists. eexists. split; [reflexivity |].
  exact (sender_settings_read_back sample_db _ 1
           (mkSenderSettingsUpdate None None (Some (Some "fax 048-111-1111"))) _ eq_refl).
Defined.

(* ===================================================================== *)
(** * The two match queries: order and agreement *)
(* ===================================================================== *)

Lemma key_le_trans (a b c : Py.key) : Py.key_le a b -> Py.key_le b c -> Py.key_le a c.
Proof. unfold Py.key_le. lia. Qed.

Lemma key_le_antisym (a b : Py.key) : Py.key_le a b -> Py.key_le b a -> a = b.
Proof.
  destruct a as [a1 a2], b as [b1 b2]. unfold Py.key_le. simpl.
  intros H1 H2. f_equal; lia.
Qed.

Lemma Permutation_filter {A : Type} (p : A -> bool) (l l' : list A) :
  Permutation l l' -> Permutation (filter p l) (filter p l').
Proof.
  induction 1 as [| x l l' _ IH | x y l | l l' l'' _ IH1 _ IH2]; simpl.
  - constructor.
  - destruct (p x); [now constructor | exact IH].
  - destruct (p x), (p y); try reflexivity. apply perm_swap.
  - now transitivity (filter p l').
Qed.

Lemma StronglySorted_filter {A : Type} (R : A -> A -> Prop) (p : A -> bool) (l : list A) :
  StronglySorted R l -> StronglySorted R (filter p l).
Proof.
  induction 1 as [| x l _ IH Hall]; simpl; [constructor |].
  destruct (p x); [| exact IH]. constructor; [exact IH |].
  apply Forall_forall. intros z Hz. apply filter_In in Hz as [Hz _].
  rewrite Forall_forall in Hall. now apply Hall.
Qed.

Lemma NoDup_map_filter {A B : Type} (k : A -> B) (p : A -> bool) (l : list A) :
  NoDup (map k l) -> NoDup (map k (filter p l)).
Proof.
  induction l as [| x l IH]; simpl; intros H; [constructor |].
  inversion H as [| ? ? Hx Hl]; subst. destruct (p x); [| now apply IH].
  simpl. constructor; [| now apply IH].
  intros Hin. apply Hx. apply in_map_iff in Hin as [z [Ez Hz]].
  apply filter_In in Hz as [Hz _]. apply in_map_iff. now exists z.
Qed.

Section SortedUnique.
Context {A : Type} (k : A -> Py.key).

(** Two ascending lists with the same elements are the same list when no
    two elements share a key: whatever the database does with ties, there
    are none to break. *)
Lemma sorted_perm_unique (l1 : list A) :
  forall l2,
    Permutation l1 l2 ->
    StronglySorted (fun a b => Py.key_le (k a) (k b)) l1 ->
    StronglySorted (fun a b => Py.key_le (k a) (k b)) l2 ->
    NoDup (map k l1) ->
    l1 = l2.
Proof.
  induction l1 as [| a l1 IH]; intros l2 HP H1 H2 Hnd.
  - apply Permutation_nil in HP. now subst.
  - destruct l2 as [| b l2];
      [apply Permutation_sym, Permutation_nil in HP; discriminate |].
    inversion H1 as [| ? ? H1' Ha]; subst.
    inversion H2 as [| ? ? H2' Hb]; subst.
    inversion Hnd as [| ? ? Hka Hnd']; subst.
    assert (E : a = b).
    { assert (Ia : In a (b :: l2)) by (apply (Permutation_in _ HP); now left).
      assert (Ib : In b (a :: l1))
        by (apply (Permutation_in _ (Permutation_sym HP)); now left).
      destruct Ia as [<- | Ia]; [reflexivity |].
      destruct Ib as [<- | Ib]; [reflexivity |].
      exfalso. apply Hka.
      rewrite Forall_forall in Ha, Hb.
      rewrite (key_le_antisym _ _ (Ha b Ib) (Hb a Ia)).
      now apply in_map. }
    subst b. f_equal. apply IH; try assumption.
    now apply Permutation_cons_inv in HP.
Qed.

End SortedUnique.

Lemma venue_order_sorted (q : list Match) :
  StronglySorted (fun a b => Py.key_le (venue_order_key a) (venue_order_key b))
    (order_by_venue_order q).
Proof.
  apply Sorted_StronglySorted.
  - intros a b c. apply key_le_trans.
  - apply (sorted_Sorted venue_order_key).
Qed.

(** X9. The reports of [GET /match-reports] are those of the completed
    matches of the [GET /data] envelope of the same request: the same
    matches, both lists in ascending order of (venue id, match order).
    When no two matches of the envelope share venue id and match order, the
    reports come in the order of the envelope. *)
Theorem match_reports_follow_report_data :
  forall (db : Session) (tournament_id : Z) (target_date : date)
         (venue_id : option Z) (now : string) (r : ReportData),
    get_report_data db tournament_id target_date venue_id now = Ok r ->
    exists ms,
      get_match_reports db tournament_id target_date venue_id
      = Ok (map match_report ms)
      /\ Permutation ms
           (filter (fun m => status_eqb (status m) COMPLETED) (rd_matches r))
      /\ Sorted (fun a b => Py.key_le (venue_order_key a) (venue_order_key b)) ms
      /\ Sorted (fun a b => Py.key_le (venue_order_key a) (venue_order_key b))
           (rd_matches r)
      /\ (NoDup (map venue_order_key (rd_matches r)) ->
          ms = filter (fun m => status_eqb (status m) COMPLETED) (rd_matches r)).
Proof.
  intros db tid d v now r H. unfold get_report_data in H.
  destruct (find_tournament db tid); [| discriminate].
  injection H as <-. simpl.
  exists (match_reports_query db tid d v).
  assert (HP : Permutation (match_reports_query db tid d v)
                 (filter (fun m => status_eqb (status m) COMPLETED)
                    (report_data_query db tid d v))).
  { unfold match_reports_query, report_data_query, order_by_venue_order, Py.sorted.
    rewrite sorted_by_perm.
    rewrite (Permutation_filter _ _ _ (sorted_by_perm _ _)).
    rewrite !filter_venue_spec, !filter_filter.
    match goal with
    | |- Permutation (filter ?f ?M) (filter ?g ?M) =>
        rewrite (filter_ext f g); [reflexivity |]
    end.
    intros m.
    destruct (m_tournament_id m =? tid), (date_eqb (match_date m) d),
      (status_eqb (status m) COMPLETED), (stage_eqb (stage m) TRAINING),
      (venue_selected v m); reflexivity. }
  split; [reflexivity |]. split; [exact HP |].
  split; [apply (sorted_Sorted venue_order_key) |].
  split; [apply (sorted_Sorted venue_order_key) |].
  intros Hnd. apply (sorted_perm_unique venue_order_key).
  - exact HP.
  - apply venue_order_sorted.
  - apply StronglySorted_filter, venue_order_sorted.
  - apply (Permutation_NoDup
             (l := map venue_order_key
                     (filter (fun m => status_eqb (status m) COMPLETED)
                        (report_data_query db tid d v)))).
    + apply Permutation_map, Permutation_sym, HP.
    + apply NoDup_map_filter, Hnd.
Qed.

(** On the sample day the envelope has the played match at venue 1 and
    the scheduled one at venue 2; the report list has the played one. *)
Lemma match_reports_follow_report_data_sample :
  exists r,
    get_report_data sample_db 1 day1 None "2025-03-29T18:00:00" = Ok r
    /\ rd_matches r = [played_match; scheduled_match]
    /\ get_match_reports sample_db 1 day1 None = Ok [match_report played_match].
Proof.
  eexists. split; [reflexivity |]. split; [reflexivity |].
  destruct (match_reports_follow_report_data sample_db 1 day1 None
              "2025-03-29T18:00:00" _ eq_refl) as [ms [H1 [_ [_ [_ H5]]]]].
  rewrite H1. rewrite H5; [reflexivity |].
  simpl. repeat constructor; simpl; intuition discriminate.
Defined.

(** X11. The envelope of [GET /data] is about the tournament and the day
    asked for: its tournament has the id, its recipients are those of the
    tournament, its matches are table rows of that tournament and day. With
    a venue id other than 0 every match is at that venue and the venue of
    the envelope, when there is one, has that id; a venue id that no venue
    row has is not an error. *)
Theorem report_data_envelope :
  forall (db : Session) (tournament_id : Z) (target_date : date)
         (venue_id : option Z) (now : string) (r : ReportData),
    get_report_data db tournament_id target_date venue_id now = Ok r ->
    t_id (rd_tournament r) = tournament_id
    /\ rd_date r = isoformat target_date
    /\ generated_at r = now
    /\ rd_recipients r = get_recipients db tournament_id
    /\ Forall (fun x => r_tournament_id x = tournament_id) (rd_recipients r)
    /\ Forall (fun m => In m (matches db) /\ m_tournament_id m = tournament_id
                        /\ match_date m = target_date)
         (rd_matches r)
    /\ (forall v, venue_id = Some v -> v <> 0 ->
          Forall (fun m => m_venue_id m = v) (rd_matches r)
          /\ rd_venue r = find (fun x => v_id x =? v) (venues db)
          /\ (forall ven, rd_venue r = Some ven -> v_id ven = v)).
Proof.
  intros db tid d v now r H. unfold get_report_data in H.
  destruct (find_tournament db tid) as [t |] eqn:Hf; [| discriminate].
  injection H as <-. simpl.
  split; [now apply find_tournament_id in Hf |].
  split; [reflexivity |]. split; [reflexivity |]. split; [reflexivity |].
  split; [| split].
  - apply Forall_forall. intros x Hx. unfold get_recipients in Hx.
    apply filter_In in Hx as [_ Hx]. now apply Z.eqb_eq.
  - apply Forall_forall. intros m Hm.
    apply report_data_query_In in Hm. tauto.
  - intros v0 -> Hv. simpl.
    destruct (Z.eqb_spec v0 0) as [E | _]; [contradiction |]. simpl.
    split; [| split; [reflexivity |]].
    + apply Forall_forall. intros m Hm.
      unfold report_data_query, order_by_venue_order, Py.sorted in Hm.
      apply sorted_by_In in Hm. rewrite filter_venue_spec in Hm.
      apply filter_In in Hm as [_ Hm]. simpl in Hm.
      apply orb_true_iff in Hm as [Hm | Hm]; apply Z.eqb_eq in Hm; congruence.
    + intros ven Hven. apply find_some in Hven as [_ Hven]. now apply Z.eqb_eq.
Qed.

(** Venue 2 of the sample day: the scheduled match, and the venue row. *)
Lemma report_data_envelope_sample :
  exists r,
    get_report_data sample_db 1 day1 (Some 2) "2025-03-29T18:00:00" = Ok r
    /\ Forall (fun m => m_venue_id m = 2) (rd_matches r)
    /\ rd_venue r = Some (mkVenue 2 1 "駒場" true).
Proof.
  eexists. split; [reflexivity |].
  destruct (report_data_envelope sample_db 1 day1 (Some 2) "2025-03-29T18:00:00"
              _ eq_refl) as [_ [_ [_ [_ [_ [_ H]]]]]].
  destruct (H 2 eq_refl ltac:(discriminate)) as [H1 [H2 _]].
  split; [exact H1 | exact H2].
Defined.

(* ===================================================================== *)
(** * The fields of a match report *)
(* ===================================================================== *)

Lemma or_str_display (t : Team) : Py.or_str (short_name t) (team_name t) = display_name t.
Proof. unfold display_name. destruct (short_name t) as [[| c s] |]; reflexivity. Qed.

Lemma pad2_length (n : nat) : (n < 100)%nat -> String.length (Py.pad2 n) = 2%nat.
Proof.
  intros H.
  assert (K : forallb (fun i => Nat.eqb (String.length (Py.pad2 i)) 2) (seq 0 100) = true)
    by (vm_compute; reflexivity).
  rewrite forallb_forall in K. apply Nat.eqb_eq, K, in_seq. lia.
Qed.

Lemma append_length (a b : string) :
  String.length (a ++ b) = (String.length a + String.length b)%nat.
Proof. induction a as [| c a IH]; simpl; [reflexivity | now rewrite IH]. Qed.

(** X12. A report row shows each team under its short name, or under its
    full name when the short name is absent or empty; it has a penalty
    string exactly when the match has a penalty shoot-out; its kick-off
    time has the five characters of HH:MM; it has one goal line per goal. *)
Theorem match_report_row :
  forall m : Match,
    match_number (match_report m) = match_order m
    /\ home_team_name (match_report m) = display_name (home_team m)
    /\ away_team_name (match_report m) = display_name (away_team m)
    /\ (score_pk (match_report m) = None <-> has_penalty_shootout m = false)
    /\ (has_penalty_shootout m = true ->
        score_pk (match_report m)
        = Some (Py.str_opt (home_pk m) ++ "-" ++ Py.str_opt (away_pk m)))
    /\ ((hour (match_time m) < 24)%nat -> (minute_of_hour (match_time m) < 60)%nat ->
        String.length (kickoff_time (match_report m)) = 5%nat)
    /\ List.length (mr_goals (match_report m)) = List.length (goals m).
Proof.
  intros m. unfold match_report. simpl.
  split; [reflexivity |]. split; [apply or_str_display |].
  split; [apply or_str_display |]. split; [| split; [| split]].
  - destruct (has_penalty_shootout m); split; intros H;
      try reflexivity; discriminate.
  - intros ->. reflexivity.
  - intros Hh Hm. unfold strftime_HM.
    rewrite !append_length, !pad2_length by lia. reflexivity.
  - rewrite length_map. apply sorted_by_length.
Qed.

(** A shoot-out whose scores were never entered prints as None-None. *)
Lemma match_report_row_sample :
  score_pk (match_report
              (mkMatch 9 1 1 day1 (mkTime 14 0) 3 FINAL COMPLETED urawa_a omiya
                 (Some 0) (Some 0) (Some 0) (Some 0) true None None []))
  = Some "None-None"
  /\ String.length (kickoff_time (match_report played_match)) = 5%nat.
Proof.
  destruct (match_report_row
              (mkMatch 9 1 1 day1 (mkTime 14 0) 3 FINAL COMPLETED urawa_a omiya
                 (Some 0) (Some 0) (Some 0) (Some 0) true None None []))
    as [_ [_ [_ [_ [H _]]]]].
  destruct (match_report_row played_match) as [_ [_ [_ [_ [_ [K _]]]]]].
  split; [exact (H eq_refl) |].
  apply K; simpl; lia.
Defined.

Lemma filter_map_commute {A B : Type} (f : A -> B) (p : B -> bool) (l : list A) :
  filter p (map f l) = map f (filter (fun a => p (f a)) l).
Proof.
  induction l as [| x l IH]; [reflexivity |].
  simpl. destruct (p (f x)); simpl; now rewrite IH.
Qed.

(** X13. The goal lines are stable: the goals of one half and one minute are
    rendered in the order the match holds them. *)
Theorem goal_lines_stable :
  forall (m : Match) (h mi : Z),
    filter (fun g => (gr_half g =? h) && (gr_minute g =? mi))%bool
      (mr_goals (match_report m))
    = map goal_report
        (filter (fun g => (half g =? h) && (minute g =? mi))%bool (goals m)).
Proof.
  intros m h mi. unfold match_report. simpl.
  rewrite filter_map_commute. f_equal.
  apply (sorted_stable goal_key (h, mi)).
Qed.

(* ===================================================================== *)
(** * Group standings: pages and header blocks *)
(* ===================================================================== *)

Lemma group_header_finished db font_name st standing :
  (List.length (finished (canvas (group_header db font_name st standing)))
   <= S (List.length (finished (canvas st))))%nat
  /\ (current_group st = None -> 80 <= y st ->
      finished (canvas (group_header db font_name st standing)) = finished (canvas st)).
Proof.
  unfold group_header. split.
  - destruct (_ <? 80); simpl; [| lia].
    rewrite length_app. simpl. lia.
  - intros Hc Hy. rewrite Hc.
    destruct (Z.ltb_spec (y st) 80) as [H | _]; [lia | reflexivity].
Qed.

Lemma group_header_current db font_name st standing :
  current_group (group_header db font_name st standing) = Some (s_group_id standing).
Proof. unfold group_header. destruct (_ <? 80); reflexivity. Qed.

Lemma layout_step_current db font_name st standing :
  current_group (layout_step db font_name st standing) = Some (s_group_id standing).
Proof.
  unfold layout_step, standing_row. simpl.
  destruct (group_changed _ _) eqn:E; [apply group_header_current |].
  unfold group_changed in E. destruct (current_group st) as [g |]; [| discriminate].
  apply negb_false_iff, String.eqb_eq in E. now rewrite E.
Qed.

Lemma layout_step_finished db font_name st standing :
  (List.length (finished (canvas (layout_step db font_name st standing)))
   <= List.length (finished (canvas st))
      + (if group_changed (s_group_id standing) (current_group st) then 1 else 0))%nat.
Proof.
  unfold layout_step, standing_row. simpl.
  destruct (group_changed _ _); [| lia].
  pose proof (group_header_finished db font_name st standing) as [H _]. lia.
Qed.

Lemma layout_loop_finished db font_name (l : list Standing) :
  forall st,
    (List.length (finished (canvas (fold_left (layout_step db font_name) l st)))
     <= List.length (finished (canvas st)) + group_runs (current_group st) l)%nat.
Proof.
  induction l as [| s l IH]; intros st; simpl; [lia |].
  specialize (IH (layout_step db font_name st s)).
  rewrite layout_step_current in IH.
  pose proof (layout_step_finished db font_name st s). lia.
Qed.

Lemma draw_group_standings_length db font_name tournament (l : list Standing) :
  List.length (draw_group_standings db font_name tournament l)
  = S (List.length
         (finished
            (canvas
               (fold_left (layout_step db font_name) l
                  (mkLayout
                     (drawString (setFont new_canvas font_name 16) 30 (A4_height - 20)
                        (t_name tournament ++ " グループ順位表"))
                     (A4_height - 20 - 15) None))))).
Proof.
  unfold draw_group_standings.
  change "浦和カップ運営事務局" with footer_text.
  rewrite save_after_footer, length_app. simpl. lia.
Qed.

Lemma group_runs_same (g : string) (l : list Standing) :
  Forall (fun s => s_group_id s = g) l -> group_runs (Some g) l = 0%nat.
Proof.
  induction 1 as [| s l Hs _ IH]; [reflexivity |].
  simpl. rewrite Hs, String.eqb_refl. simpl. exact IH.
Qed.

Lemma draw_group_standings_pages :
  forall (db : Session) (font_name : string) (tournament : Tournament)
         (l : list Standing),
    (1 <= List.length (draw_group_standings db font_name tournament l))%nat
    /\ (List.length (draw_group_standings db font_name tournament l)
        <= Nat.max 1 (group_runs None l))%nat
    /\ (forall g, Forall (fun s => s_group_id s = g) l ->
          List.length (draw_group_standings db font_name tournament l) = 1%nat).
Proof.
  intros db font_name tournament l.
  assert (Hbound : (List.length (draw_group_standings db font_name tournament l)
                    <= Nat.max 1 (group_runs None l))%nat).
  { rewrite draw_group_standings_length.
    destruct l as [| s l]; [simpl; lia |].
    cbn [fold_left].
    match goal with
    | |- context [layout_step db font_name ?st0 s] => set (st := st0)
    end.
    pose proof (layout_loop_finished db font_name l (layout_step db font_name st s)) as K.
    rewrite layout_step_current in K.
    assert (H1 : finished (canvas (layout_step db font_name st s)) = []).
    { unfold layout_step, standing_row. simpl.
      destruct (group_header_finished db font_name st s) as [_ H].
      apply H; [reflexivity | unfold st, A4_height; simpl; lia]. }
    rewrite H1 in K. cbn [group_runs group_changed]. simpl in K.
    etransitivity; [| apply Nat.le_max_r]. simpl. apply le_n_S. exact K. }
  split; [rewrite draw_group_standings_length; lia |].
  split; [exact Hbound |].
  intros g Hg.
  assert ((1 <= List.length (draw_group_standings db font_name tournament l))%nat)
    by (rewrite draw_group_standings_length; lia).
  destruct l as [| s l]; [cbn [group_runs] in Hbound; lia |].
  inversion Hg as [| ? ? Hs Hl]; subst.
  cbn [group_runs group_changed] in Hbound.
  rewrite (group_runs_same _ _ Hl) in Hbound. lia.
Qed.

(** X15. The document has at least one page and at most one page per group
    block: a page is only closed where the group id changes, and never
    before the first group. Standings of a single group make a single page,
    however many they are. *)
Theorem pages_break_only_between_groups :
  forall (db : Session) (font_name : string) (tournament : Tournament)
         (l : list Standing),
    (1 <= List.length (draw_group_standings db font_name tournament l))%nat
    /\ (List.length (draw_group_standings db font_name tournament l)
        <= Nat.max 1 (group_runs None l))%nat
    /\ (forall g, Forall (fun s => s_group_id s = g) l ->
          List.length (draw_group_standings db font_name tournament l) = 1%nat).
Proof. exact draw_group_standings_pages. Qed.

(** Sixty teams in one group: one page. *)
Lemma pages_break_only_between_groups_sample :
  List.length
    (draw_group_standings long_group_db "Helvetica" sample_tournament
       (map (standing_of "A") (seq 1 60))) = 1%nat.
Proof.
  destruct (pages_break_only_between_groups long_group_db "Helvetica" sample_tournament
              (map (standing_of "A") (seq 1 60))) as [_ [_ H]].
  apply (H "A").
  apply Forall_forall. intros s Hs. apply in_map_iff in Hs as [i [<- _]]. reflexivity.
Defined.

Lemma issued_issue (p : op -> bool) (c : Canvas) (o : op) :
  issued p (issue c o) = (issued p c ++ if p o then [o] else [])%list.
Proof. unfold issued. rewrite stream_issue, filter_app. simpl. now destruct (p o). Qed.

Lemma issued_showPage (p : op -> bool) (c : Canvas) : issued p (showPage c) = issued p c.
Proof. unfold issued. now rewrite stream_showPage. Qed.

Lemma column_headers_group_header db font_name st standing :
  List.length (issued is_column_header (canvas (group_header db font_name st standing)))
  = S (List.length (issued is_column_header (canvas st))).
Proof.
  unfold group_header.
  destruct (_ <? 80); simpl; unfold line, drawString, setFont;
    rewrite !issued_issue, ?issued_showPage; simpl;
    rewrite ?app_nil_r, length_app; simpl; lia.
Qed.

Lemma column_headers_standing_row db font_name st standing :
  issued is_column_header (canvas (standing_row db font_name st standing))
  = issued is_column_header (canvas st).
Proof.
  unfold standing_row. simpl. unfold drawString, setFont.
  rewrite !issued_issue. simpl. now rewrite ?app_nil_r.
Qed.

Lemma column_headers_loop db font_name (l : list Standing) :
  forall st,
    List.length (issued is_column_header
                   (canvas (fold_left (layout_step db font_name) l st)))
    = (List.length (issued is_column_header (canvas st))
       + group_runs (current_group st) l)%nat.
Proof.
  induction l as [| s l IH]; intros st; simpl; [lia |].
  rewrite IH, layout_step_current.
  unfold layout_step. rewrite column_headers_standing_row.
  destruct (group_changed _ _); [rewrite column_headers_group_header |]; lia.
Qed.

Lemma draw_group_standings_column_headers :
  forall (db : Session) (font_name : string) (tournament : Tournament)
         (l : list Standing),
    List.length
      (filter is_column_header
         (List.concat (draw_group_standings db font_name tournament l)))
    = group_runs None l.
Proof.
  intros db font_name tournament l.
  unfold draw_group_standings. rewrite concat_save.
  match goal with
  | |- List.length (filter _ (stream ?c)) = _ =>
      change (List.length (issued is_column_header c) = group_runs None l)
  end.
  unfold drawString at 1. unfold setFont at 1.
  rewrite !issued_issue. simpl. rewrite !app_nil_r.
  rewrite column_headers_loop. cbn [canvas current_group].
  unfold drawString, setFont. rewrite !issued_issue. reflexivity.
Qed.

(** X16. The column header row is drawn once for every group block of the
    standings list, that is, once at the start and once at each place where
    the group id differs from the one before. *)
Theorem column_header_per_group_block :
  forall (db : Session) (font_name : string) (tournament : Tournament)
         (l : list Standing),
    List.length
      (filter is_column_header
         (List.concat (draw_group_standings db font_name tournament l)))
    = group_runs None l.
Proof. exact draw_group_standings_column_headers. Qed.

(* ===================================================================== *)
(** * Group standings: fonts and team names *)
(* ===================================================================== *)

Lemma utf8_length_slice_to (n : nat) (s : string) :
  utf8_length (Py.slice_to n s) = Nat.min n (utf8_length s).
Proof.
  revert n. induction s as [| c s IH]; intros n; simpl.
  - now rewrite Nat.min_0_r.
  - destruct (Py.is_continuation c) eqn:E; simpl.
    + rewrite E. apply IH.
    + destruct n as [| k]; simpl; [reflexivity |].
      rewrite E. now rewrite IH.
Qed.

Lemma slice_to_prefix (n : nat) (s : string) :
  exists rest, s = Py.slice_to n s ++ rest.
Proof.
  revert n. induction s as [| c s IH]; intros n; simpl.
  - now exists "".
  - destruct (Py.is_continuation c).
    + destruct (IH n) as [rest Hr]. exists rest. simpl. now rewrite <- Hr.
    + destruct n as [| k].
      * now exists (String c s).
      * destruct (IH k) as [rest Hr]. exists rest. simpl. now rewrite <- Hr.
Qed.

Lemma stream_Forall_issue (P : op -> Prop) (c : Canvas) (o : op) :
  P o -> Forall P (stream c) -> Forall P (stream (issue c o)).
Proof.
  intros Ho Hc. rewrite stream_issue. apply Forall_app. split; [exact Hc |].
  now constructor.
Qed.

Lemma stream_Forall_showPage (P : op -> Prop) (c : Canvas) :
  Forall P (stream c) -> Forall P (stream (showPage c)).
Proof. now rewrite stream_showPage. Qed.

Ltac is_well_drawn :=
  split;
  [ simpl; rewrite ?String.eqb_refl; reflexivity
  | first [ simpl; discriminate
          | intros _; cbn [op_text];
            first [ rewrite utf8_length_slice_to; apply Nat.le_min_l
                  | vm_compute; lia ] ] ].

Ltac keep_well_drawn :=
  unfold line, drawString, setFont;
  repeat (apply stream_Forall_issue; [is_well_drawn |]).

Lemma well_drawn_group_header db font_name st standing :
  Forall (well_drawn font_name) (stream (canvas st)) ->
  Forall (well_drawn font_name) (stream (canvas (group_header db font_name st standing))).
Proof.
  intros H. unfold group_header.
  destruct (_ <? 80); simpl; keep_well_drawn;
    [now apply stream_Forall_showPage | exact H].
Qed.

Lemma well_drawn_standing_row db font_name st standing :
  Forall (well_drawn font_name) (stream (canvas st)) ->
  Forall (well_drawn font_name) (stream (canvas (standing_row db font_name st standing))).
Proof. intros H. unfold standing_row. cbn [canvas]. keep_well_drawn. exact H. Qed.

Lemma well_drawn_loop db font_name (l : list Standing) :
  forall st,
    Forall (well_drawn font_name) (stream (canvas st)) ->
    Forall (well_drawn font_name)
      (stream (canvas (fold_left (layout_step db font_name) l st))).
Proof.
  induction l as [| s l IH]; intros st H; simpl; [exact H |].
  apply IH. unfold layout_step. apply well_drawn_standing_row.
  destruct (group_changed _ _); [now apply well_drawn_group_header | exact H].
Qed.

Lemma draw_group_standings_well_drawn db font_name tournament (l : list Standing) :
  Forall (well_drawn font_name)
    (List.concat (draw_group_standings db font_name tournament l)).
Proof.
  unfold draw_group_standings. rewrite concat_save.
  keep_well_drawn. apply well_drawn_loop. cbn [canvas].
  keep_well_drawn. constructor.
Qed.

(** X17. The font is resolved once and every [setFont] of the document names
    it: "Gothic" when one of the two font files loads, "Helvetica" when
    neither does. *)
Theorem one_font_per_document :
  forall (h : Host) (db : Session) (tournament_id : Z) (group_id : option string)
         (r : StreamingResponse (list page)),
    export_group_standings_pdf h db tournament_id group_id = Ok r ->
    Forall (fun o => selects_font (resolve_font h) o = true) (List.concat (body r))
    /\ resolve_font h
       = (if (msgothic_loads h || hiragino_loads h)%bool then "Gothic" else "Helvetica").
Proof.
  intros h db tid gid r H.
  apply export_group_standings_body in H as [t [_ [_ ->]]]. split.
  - eapply Forall_impl; [| apply draw_group_standings_well_drawn].
    intros o [Ho _]. exact Ho.
  - unfold resolve_font. now destruct (msgothic_loads h), (hiragino_loads h).
Qed.

Lemma one_font_per_document_sample :
  exists r,
    export_group_standings_pdf sample_host five_groups_db 1 None = Ok r
    /\ Forall (fun o => selects_font "Helvetica" o = true) (List.concat (body r)).
Proof.
  eexists. split; [reflexivity |].
  destruct (one_font_per_document sample_host five_groups_db 1 None _ eq_refl)
    as [H _].
  exact H.
Defined.

(** X18. No string of the team name column has more than 15 characters: a
    row shows the first 15 characters of the team's name, which is the
    whole name when it has no more than 15. *)
Theorem team_names_cut_to_15 :
  forall (db : Session) (font_name : string) (tournament : Tournament)
         (l : list Standing),
    Forall (fun o => is_name_cell o = true -> (utf8_length (op_text o) <= 15)%nat)
      (List.concat (draw_group_standings db font_name tournament l))
    /\ (forall (n : nat) (s : string),
          utf8_length (Py.slice_to n s) = Nat.min n (utf8_length s)
          /\ (exists rest, s = Py.slice_to n s ++ rest)).
Proof.
  intros db font_name tournament l. split.
  - eapply Forall_impl; [| apply draw_group_standings_well_drawn].
    intros o [_ Ho]. exact Ho.
  - intros n s. split; [apply utf8_length_slice_to | apply slice_to_prefix].
Qed.

(** A name of 17 characters is drawn as its first 15. *)
Example slice_to_example :
  Py.slice_to 15 "さいたま市立浦和南高等学校サッカー部" = "さいたま市立浦和南高等学校サッ"
  /\ Py.slice_to 15 "浦和A" = "浦和A".
Proof. split; reflexivity. Qed.

(* ===================================================================== *)
(** * Group standings: the answer of the handler *)
(* ===================================================================== *)

Lemma standings_query_In db tournament_id group_id (s : Standing) :
  In s (standings_query db tournament_id group_id) ->
  In s (standings db) /\ s_tournament_id s = tournament_id
  /\ (forall g, group_id = Some g -> g <> "" -> s_group_id s = g).
Proof.
  unfold standings_query. intros H. apply sorted_by_In in H.
  assert (H' : In s (filter (fun x => s_tournament_id x =? tournament_id) (standings db))
               /\ (forall g, group_id = Some g -> g <> "" -> s_group_id s = g)).
  { destruct group_id as [[| c g] |]; simpl in H.
    - split; [exact H |]. intros g [= <-] Hg. contradiction.
    - apply filter_In in H as [H Hg]. split; [exact H |].
      intros g' [= <-] _. now apply String.eqb_eq.
    - split; [exact H |]. intros g Hg. discriminate. }
  destruct H' as [H1 H2]. apply filter_In in H1 as [H1 Ht].
  split; [exact H1 |]. split; [now apply Z.eqb_eq | exact H2].
Qed.

(** X20. The export of one group: every standing drawn is of that group and
    of the tournament, the document is a single page, and the file is named
    after the tournament and the group. *)
Theorem single_group_export :
  forall (h : Host) (db : Session) (tournament_id : Z) (g : string)
         (r : StreamingResponse (list page)),
    g <> "" ->
    export_group_standings_pdf h db tournament_id (Some g) = Ok r ->
    Forall (fun s => s_group_id s = g /\ s_tournament_id s = tournament_id)
      (standings_query db tournament_id (Some g))
    /\ List.length (body r) = 1%nat
    /\ content_disposition r
       = "attachment; filename=group_standings_tournament_" ++ Py.str tournament_id
         ++ "_group_" ++ g ++ ".pdf".
Proof.
  intros h db tid g r Hg H.
  assert (Hall : Forall (fun s => s_group_id s = g /\ s_tournament_id s = tid)
                   (standings_query db tid (Some g))).
  { apply Forall_forall. intros s Hs. apply standings_query_In in Hs as [_ [Ht Hgr]].
    split; [now apply Hgr | exact Ht]. }
  split; [exact Hall |]. split.
  - apply export_group_standings_body in H as [t [_ [_ ->]]].
    apply (draw_group_standings_pages db (resolve_font h) t) with (g := g).
    eapply Forall_impl; [| exact Hall]. intros s [Hs _]. exact Hs.
  - unfold export_group_standings_pdf in H.
    destruct (find_tournament db tid); [| discriminate].
    destruct (standings_query db tid (Some g)); [discriminate |].
    destruct (reportlab_installed h); [| discriminate].
    injection H as <-. simpl. f_equal.
    unfold group_standings_filename.
    destruct g as [| c g]; [contradiction |]. simpl.
    now rewrite !append_assoc.
Qed.

(** Group B of the two sample groups: twelve rows, one page. *)
Lemma single_group_export_sample :
  exists r,
    export_group_standings_pdf sample_host two_groups_db 1 (Some "B") = Ok r
    /\ List.length (body r) = 1%nat
    /\ content_disposition r
       = "attachment; filename=group_standings_tournament_1_group_B.pdf".
Proof.
  eexists. split; [reflexivity |].
  destruct (single_group_export sample_host two_groups_db 1 "B" _
              ltac:(discriminate) eq_refl) as [_ [H1 H2]].
  split; [exact H1 | exact H2].
Defined.

(* ===================================================================== *)
(** * Tournament summary: the counts agree *)
(* ===================================================================== *)

Lemma filter_length_le {A : Type} (p : A -> bool) (l : list A) :
  (List.length (filter p l) <= List.length l)%nat.
Proof.
  induction l as [| x l IH]; simpl; [lia |]. destruct (p x); simpl; lia.
Qed.

Lemma filter_nonempty {A : Type} (p : A -> bool) (l : list A) :
  (0 < List.length (filter p l))%nat <-> exists x, In x l /\ p x = true.
Proof.
  split.
  - destruct (filter p l) as [| x f] eqn:E; simpl; [lia |].
    intros _. exists x. apply filter_In. rewrite E. now left.
  - intros [x Hx]. apply filter_In in Hx.
    destruct (filter p l); [contradiction | simpl; lia].
Qed.

Lemma stage_partition (l : list Match) :
  (List.length (filter (fun m => stage_eqb (stage m) QUALIFYING) l)
   + List.length (filter (fun m => stage_eqb (stage m) SEMIFINAL) l)
   + List.length (filter (fun m => stage_eqb (stage m) THIRD_PLACE) l)
   + List.length (filter (fun m => stage_eqb (stage m) FINAL) l)
   + List.length (filter (fun m => stage_eqb (stage m) TRAINING) l))%nat
  = List.length l.
Proof.
  induction l as [| m l IH]; [reflexivity |].
  simpl. destruct (stage m); simpl; lia.
Qed.

Lemma entry_sum (st : MatchStage) (count : nat) :
  list_sum (map snd (if Nat.ltb 0 count then [(st, count)] else [])) = count.
Proof. destruct count; simpl; lia. Qed.

Lemma stage_counts_In db tournament_id (st : MatchStage) (n : nat) :
  In (st, n) (stage_counts db tournament_id)
  <-> n = List.length (filter (fun m => stage_eqb (stage m) st)
                         (match_stats db tournament_id))
      /\ (0 < n)%nat.
Proof.
  unfold stage_counts. rewrite in_flat_map. split.
  - intros [s [_ H]].
    destruct (Nat.ltb_spec 0
                (List.length (filter (fun m => stage_eqb (stage m) s)
                                (match_stats db tournament_id)))) as [Hpos | _];
      [| contradiction].
    destruct H as [[= -> <-] | []]. split; [reflexivity | exact Hpos].
  - intros [-> Hpos]. exists st. split; [destruct st; simpl; tauto |].
    apply Nat.ltb_lt in Hpos. rewrite Hpos. now left.
Qed.

(** X21. The counts of the summary agree with each other: the completed
    matches are at most the matches; the stage counts add up to the number
    of matches; a stage has an entry exactly when a match of the tournament
    is of that stage, and the entry is the number of those matches; the
    goals counted are the goals of the matches of the tournament. *)
Theorem summary_counts_agree :
  forall (db : Session) (tournament_id : Z),
    (completed_matches db tournament_id <= total_matches db tournament_id)%nat
    /\ list_sum (map snd (stage_counts db tournament_id))
       = total_matches db tournament_id
    /\ (forall st,
          In st (map fst (stage_counts db tournament_id))
          <-> exists m, In m (matches db) /\ m_tournament_id m = tournament_id
                        /\ stage m = st)
    /\ (forall st n,
          In (st, n) (stage_counts db tournament_id) ->
          (0 < n)%nat
          /\ n = List.length (filter (fun m => stage_eqb (stage m) st)
                                (match_stats db tournament_id)))
    /\ total_goals db tournament_id
       = list_sum (map (fun m => List.length (goals m))
                     (match_stats db tournament_id)).
Proof.
  intros db tid. split; [apply filter_length_le |]. split; [| split; [| split]].
  - unfold stage_counts, MatchStage_members, total_matches.
    cbn [flat_map]. rewrite !map_app, !list_sum_app, !entry_sum. simpl.
    rewrite <- (stage_partition (match_stats db tid)). lia.
  - intros st. split.
    + intros H. apply in_map_iff in H as [[s n] [E H]]. simpl in E. subst s.
      apply stage_counts_In in H as [-> Hpos].
      apply filter_nonempty in Hpos as [m [Hm Hst]].
      unfold match_stats in Hm. apply filter_In in Hm as [Hm Ht].
      exists m. split; [exact Hm |]. split; [now apply Z.eqb_eq |].
      now apply stage_eqb_eq.
    + intros [m [Hm [Ht Hst]]]. apply in_map_iff.
      exists (st, List.length (filter (fun x => stage_eqb (stage x) st)
                                 (match_stats db tid))).
      split; [reflexivity |]. apply stage_counts_In. split; [reflexivity |].
      apply filter_nonempty. exists m. split.
      * unfold match_stats. apply filter_In. split; [exact Hm |]. now apply Z.eqb_eq.
      * now apply stage_eqb_eq.
  - intros st n H. apply stage_counts_In in H as [-> Hpos]. split; [exact Hpos | reflexivity].
  - unfold total_goals. induction (match_stats db tid) as [| m l IH]; [reflexivity |].
    simpl. rewrite length_app. now rewrite IH.
Qed.

(** The sample tournament: three matches, two of them completed, two
    qualifying and one training, three goals. *)
Example summary_counts_sample :
  total_matches sample_db 1 = 3%nat
  /\ completed_matches sample_db 1 = 2%nat
  /\ stage_counts sample_db 1 = [(QUALIFYING, 2%nat); (TRAINING, 1%nat)]
  /\ total_goals sample_db 1 = 3%nat.
Proof. repeat split. Qed.

Lemma summary_counts_agree_sample :
  (0 < 2)%nat
  /\ 2%nat = List.length (filter (fun m => stage_eqb (stage m) QUALIFYING)
                            (match_stats sample_db 1)).
Proof.
  destruct (summary_counts_agree sample_db 1) as [_ [_ [_ [H _]]]].
  apply (H QUALIFYING 2%nat). simpl. tauto.
Defined.

(* ===================================================================== *)
(** * The standings query: order and groups *)
(* ===================================================================== *)

Lemma string_ltb_trans (a b c : string) :
  String.ltb a b = true -> String.ltb b c = true -> String.ltb a c = true.
Proof.
  unfold String.ltb. intros H1 H2.
  assert (L1 : String_as_OT.lt a b).
  { change ((a ?= b)%string = Lt). now destruct (a ?= b)%string. }
  assert (L2 : String_as_OT.lt b c).
  { change ((b ?= c)%string = Lt). now destruct (b ?= c)%string. }
  pose proof (StrictOrder_Transitive a b c L1 L2) as L3.
  change ((a ?= c)%string = Lt) in L3. now rewrite L3.
Qed.

Lemma string_ltb_irrefl (a : string) : String.ltb a a = false.
Proof.
  destruct (String.ltb a a) eqn:E; [| reflexivity]. exfalso.
  apply (StrictOrder_Irreflexive (R := String_as_OT.lt) a).
  change ((a ?= a)%string = Lt). unfold String.ltb in E.
  now destruct (a ?= a)%string.
Qed.

Lemma string_ltb_total (a b : string) :
  String.ltb a b = false -> a = b \/ String.ltb b a = true.
Proof.
  unfold String.ltb. intros H. destruct (a ?= b)%string eqn:E; [| discriminate |].
  - left. now apply String.compare_eq_iff.
  - right. rewrite String.compare_antisym, E. reflexivity.
Qed.

Lemma standing_le_trans (a b c : Standing) :
  standing_le a b -> standing_le b c -> standing_le a c.
Proof.
  unfold standing_le. intros [H1 | [E1 R1]] [H2 | [E2 R2]].
  - left. eapply string_ltb_trans; eassumption.
  - left. now rewrite <- E2.
  - left. now rewrite E1.
  - right. split; [congruence | lia].
Qed.

Lemma standing_ltb_true_le (a b : Standing) : standing_ltb a b = true -> standing_le a b.
Proof.
  unfold standing_ltb, standing_le. intros H.
  apply orb_true_iff in H as [H | H]; [now left |].
  apply andb_true_iff in H as [H1 H2]. right.
  apply String.eqb_eq in H1. apply Z.ltb_lt in H2. split; [exact H1 | lia].
Qed.

Lemma standing_ltb_false_le (a b : Standing) : standing_ltb b a = false -> standing_le a b.
Proof.
  unfold standing_ltb, standing_le. intros H.
  apply orb_false_iff in H as [H1 H2].
  apply string_ltb_total in H1 as [E | L]; [| now left].
  right. split; [congruence |].
  rewrite E, String.eqb_refl in H2. simpl in H2. now apply Z.ltb_ge.
Qed.

Lemma insert_standing_sorted (x : Standing) (l : list Standing) :
  StronglySorted standing_le l -> StronglySorted standing_le (Py.insert standing_ltb x l).
Proof.
  induction l as [| y l IH]; intros Hs; simpl.
  - repeat constructor.
  - inversion Hs as [| ? ? Hs' Hall]; subst.
    destruct (standing_ltb y x) eqn:E.
    + constructor; [now apply IH |].
      apply Forall_forall. intros z Hz.
      apply (Permutation_in _ (insert_perm standing_ltb x l)) in Hz.
      destruct Hz as [<- | Hz]; [now apply standing_ltb_true_le |].
      rewrite Forall_forall in Hall. now apply Hall.
    + assert (Hxy : standing_le x y) by now apply standing_ltb_false_le.
      constructor; [exact Hs |]. constructor; [exact Hxy |].
      eapply Forall_impl; [| exact Hall]. intros z Hz.
      eapply standing_le_trans; eassumption.
Qed.

Lemma standings_query_sorted db tournament_id group_id :
  StronglySorted standing_le (standings_query db tournament_id group_id).
Proof.
  unfold standings_query.
  induction (filter_group group_id
               (filter (fun s => s_tournament_id s =? tournament_id) (standings db)))
    as [| x l IH]; simpl; [constructor |].
  now apply insert_standing_sorted.
Qed.

(** In a sorted standings list the group blocks are the groups. *)
Lemma group_runs_sorted (l : list Standing) :
  StronglySorted standing_le l -> group_runs None l = List.length (group_ids l).
Proof.
  unfold group_ids. induction l as [| s l IH]; intros Hs; [reflexivity |].
  inversion Hs as [| ? ? Hs' Hall]; subst. specialize (IH Hs').
  cbn [group_runs group_changed map nodup].
  destruct l as [| s2 l2].
  - reflexivity.
  - cbn [group_runs map] in *. unfold group_changed at 1.
    destruct (String.eqb_spec (s_group_id s2) (s_group_id s)) as [E | Hne].
    + destruct (in_dec string_dec (s_group_id s) (s_group_id s2 :: map s_group_id l2))
        as [_ | Hn]; [| exfalso; apply Hn; left; exact E].
      simpl negb. cbn iota. rewrite <- IH. unfold group_changed. reflexivity.
    + destruct (in_dec string_dec (s_group_id s) (s_group_id s2 :: map s_group_id l2))
        as [Hin | _].
      * exfalso.
        inversion Hall as [| ? ? H2 Hl2]; subst.
        assert (Hlt : String.ltb (s_group_id s) (s_group_id s2) = true).
        { destruct H2 as [H2 | [H2 _]]; [exact H2 | congruence]. }
        destruct Hin as [Hin | Hin]; [congruence |].
        apply in_map_iff in Hin as [z [Ez Hz]].
        inversion Hs' as [| ? ? _ Hs2]; subst.
        rewrite Forall_forall in Hs2. specialize (Hs2 z Hz).
        assert (Hz' : String.ltb (s_group_id s) (s_group_id z) = true).
        { destruct Hs2 as [Hl | [Hl _]].
          - eapply string_ltb_trans; eassumption.
          - now rewrite <- Hl. }
        rewrite Ez in Hz'. now rewrite string_ltb_irrefl in Hz'.
      * simpl negb. cbn iota. cbn [List.length]. rewrite <- IH.
        unfold group_changed. lia.
Qed.

(** X22. The standings the handler draws are ordered by group id and, within
    a group, by rank. So the groups are contiguous: the column header is
    drawn once per distinct group, and the document has no more pages than
    there are groups. *)
Theorem standings_drawn_group_by_group :
  forall (h : Host) (db : Session) (tournament_id : Z) (group_id : option string)
         (r : StreamingResponse (list page)),
    export_group_standings_pdf h db tournament_id group_id = Ok r ->
    StronglySorted standing_le (standings_query db tournament_id group_id)
    /\ List.length (filter is_column_header (List.concat (body r)))
       = List.length (group_ids (standings_query db tournament_id group_id))
    /\ (List.length (body r)
        <= List.length (group_ids (standings_query db tournament_id group_id)))%nat.
Proof.
  intros h db tid gid r H.
  pose proof (standings_query_sorted db tid gid) as Hs.
  apply export_group_standings_body in H as [t [_ [Hne ->]]].
  split; [exact Hs |]. split.
  - rewrite draw_group_standings_column_headers. now apply group_runs_sorted.
  - destruct (draw_group_standings_pages db (resolve_font h) t
                (standings_query db tid gid)) as [_ [Hb _]].
    rewrite (group_runs_sorted _ Hs) in Hb.
    destruct (standings_query db tid gid) as [| s l]; [contradiction |].
    assert ((1 <= List.length (group_ids (s :: l)))%nat).
    { rewrite <- (group_runs_sorted _ Hs). cbn [group_runs group_changed]. lia. }
    lia.
Qed.

(** Five groups of six: five header rows on two pages. *)
Lemma standings_drawn_group_by_group_sample :
  exists r,
    export_group_standings_pdf sample_host five_groups_db 1 None = Ok r
    /\ List.length (filter is_column_header (List.concat (body r))) = 5%nat
    /\ List.length (body r) = 2%nat.
Proof.
  eexists. split; [reflexivity |].
  destruct (standings_drawn_group_by_group sample_host five_groups_db 1 None _ eq_refl)
    as [_ [H _]].
  split; [| vm_compute; reflexivity].
  rewrite H. vm_compute. reflexivity.
Defined.

(* ===================================================================== *)
(** * Default recipients: what the call leaves alone *)
(* ===================================================================== *)

Lemma max_id_app (l l' : list Z) :
  fold_right Z.max 0 l <= fold_right Z.max 0 (l ++ l')%list.
Proof.
  induction l as [| x l IH]; simpl.
  - induction l' as [| y l' IH']; simpl; [lia |].
    etransitivity; [exact IH' | apply Z.le_max_r].
  - apply Z.max_le_compat_l. exact IH.
Qed.

Lemma add_all_frame (data : list (string * string)) :
  forall (db : Session) (tournament_id : Z),
    let '(db', created) := add_all db tournament_id data in
    Forall (fun r => next_recipient_id (recipients db) <= r_id r) created
    /\ venues db' = venues db /\ teams db' = teams db /\ groups db' = groups db
    /\ matches db' = matches db /\ standings db' = standings db.
Proof.
  induction data as [| [name notes] rest IH]; intros db tid; simpl.
  - repeat split. constructor.
  - specialize (IH (fst (db_add_recipient db tid name notes)) tid).
    simpl in IH.
    destruct (add_all _ tid rest) as [db2 created].
    destruct IH as [H1 [H2 [H3 [H4 [H5 H6]]]]].
    repeat split; try assumption.
    constructor; [simpl; lia |].
    eapply Forall_impl; [| exact H1]. intros r Hr.
    etransitivity; [| exact Hr].
    unfold next_recipient_id. rewrite map_app.
    pose proof (max_id_app (map r_id (recipients db))
                  (map r_id [mkRecipient (1 + fold_right Z.max 0 (map r_id (recipients db)))
                               tid name notes])).
    lia.
Qed.

(** X23. A call of setup-default touches only the recipients of its
    tournament: the rows it returns are appended to that tournament's list
    under keys no row had, the lists of the other tournaments and all the
    other tables are as before. *)
Theorem setup_default_recipients_frame :
  forall (db db' : Session) (tournament_id : Z) (created : list ReportRecipient),
    setup_default_recipients db tournament_id = Ok (db', created) ->
    get_recipients db' tournament_id
    = (get_recipients db tournament_id ++ created)%list
    /\ (forall other, other <> tournament_id ->
          get_recipients db' other = get_recipients db other)
    /\ Forall (fun r => ~ In (r_id r) (recipient_ids db)) created
    /\ tournaments db' = tournaments db /\ venues db' = venues db
    /\ teams db' = teams db /\ groups db' = groups db
    /\ matches db' = matches db /\ standings db' = standings db.
Proof.
  intros db db' tid created H. unfold setup_default_recipients in H.
  destruct (find_tournament db tid); [| discriminate].
  pose proof (add_all_spec default_recipients db tid) as S.
  pose proof (add_all_frame default_recipients db tid) as F.
  destruct (add_all db tid default_recipients) as [db2 c2].
  injection H as <- <-.
  destruct S as [R [_ [T K]]]. destruct F as [Fr [F1 [F2 [F3 [F4 F5]]]]].
  split; [| split; [| split; [| repeat split; assumption]]].
  - unfold get_recipients. rewrite R, filter_app. f_equal.
    apply filter_all. eapply Forall_impl; [| exact T].
    intros r Hr. now apply Z.eqb_eq.
  - intros other Hne. unfold get_recipients. rewrite R, filter_app.
    assert (E : filter (fun r => r_tournament_id r =? other) c2 = []).
    { clear -T Hne. induction T as [| r l Hr _ IH]; [reflexivity |].
      simpl. destruct (Z.eqb_spec (r_tournament_id r) other) as [E | _];
        [congruence | exact IH]. }
    rewrite E. apply app_nil_r.
  - eapply Forall_impl; [| exact Fr]. intros r Hr Hin.
    unfold recipient_ids in Hin. apply in_map_iff in Hin as [x [Ex Hx]].
    apply next_recipient_id_above in Hx. cbv beta in Hr. lia.
Qed.

Lemma setup_default_recipients_frame_sample :
  exists db' created,
    setup_default_recipients sample_db 1 = Ok (db', created)
    /\ get_recipients db' 2 = get_recipients sample_db 2
    /\ matches db' = matches sample_db.
Proof.
  eexists. eexists. split; [reflexivity |].
  destruct (setup_default_recipients_frame sample_db _ 1 _ eq_refl)
    as [_ [H [_ [_ [_ [_ [_ [H' _]]]]]]]].
  split; [apply H; discriminate | exact H'].
Defined.

(* ===================================================================== *)
(** * Group standings: rows on the page *)
(* ===================================================================== *)










(** The bound of 14 rows cannot be raised: after groups of 13 and 14
    rows a group of 15 starts at 81 mm on the same page, and its last row
    stands at y = -2 mm. *)
Example fifteen_rows_below_a_low_header :
  blocks_at_most 15 None 0 (standings_query three_groups_db 1 None) = true
  /\ match export_group_standings_pdf sample_host three_groups_db 1 None with
     | Ok r => (List.length (body r), total_rows (body r), rows_rendered (body r))
     | Raise _ => (0%nat, 0%nat, 0%nat)
     end = (1%nat, 42%nat, 41%nat).
Proof. split; vm_compute; reflexivity. Qed.


